(** * Dictation: the planetary simulation core, embedded in Rocq

    A shallow embedding of [src/sim.ts], [src/planet.ts] and the simulation
    driver of [src/game.ts].  JavaScript numbers are IEEE 754 binary64
    values; they are modelled by Rocq's primitive [float], whose operations
    are the same binary64 operations (round to nearest, ties to even), so a
    closed term evaluates to the value the program computes.  Mutable
    objects are modelled by explicit state passing: a method that mutates
    [this] becomes a function from the object to the updated object. *)

From Stdlib Require Import ZArith Bool List String Lia.
From Stdlib Require Import Floats.
From Stdlib Require Uint63.
Import ListNotations.

Set Warnings "-inexact-float".

(** ** The numeric built-ins of the language *)

Module JS.
Local Open Scope float_scope.

(** [Math.PI] and [Number.MAX_SAFE_INTEGER]. *)
Definition Math_PI : float := 0x1.921fb54442d18p+1.
Definition MAX_SAFE_INTEGER : float := 9007199254740991.

(** [Math.min(a, b)]: NaN when either is NaN, and [-0] below [+0]. *)
Definition Math_min (a b : float) : float :=
  if is_nan a || is_nan b then nan
  else if a <? b then a
  else if b <? a then b
  else if get_sign a then a else b.

(** [Math.max(a, b)]: NaN when either is NaN, and [+0] above [-0]. *)
Definition Math_max (a b : float) : float :=
  if is_nan a || is_nan b then nan
  else if a <? b then b
  else if b <? a then a
  else if get_sign a then b else a.

(** [Math.sign(x)]: [1], [-1], or [x] itself for NaN and the zeros. *)
Definition Math_sign (x : float) : float :=
  if 0 <? x then 1 else if x <? 0 then -1 else x.

(** The number [n * 2^e], rounded to binary64 (and exact whenever it is
    representable); [szero] is the sign given to a zero. *)
Definition of_scaled (n e : Z) (szero : bool) : float :=
  SF2Prim (binary_normalize prec emax n e szero).

(** [Math.round(x)]: the nearest integer, ties towards [+Infinity];
    NaN, the infinities, the zeros and the integers are returned
    unchanged, and a result of zero keeps the sign of [x]. *)
Definition Math_round (x : float) : float :=
  match Prim2SF x with
  | S754_finite s m e =>
      if (0 <=? e)%Z then x
      else
        let twice := Z.shiftl (cond_Zopp s (Zpos m)) 1 in
        let half := Z.shiftl 1 (- e) in
        of_scaled (Z.shiftr (twice + half) (1 - e)) 0 s
  | _ => x
  end.

(** [x % y]: the remainder of the truncating division, computed exactly,
    with the sign of the dividend. *)
Definition rem (x y : float) : float :=
  match Prim2SF x, Prim2SF y with
  | S754_nan, _ | _, S754_nan => nan
  | S754_infinity _, _ => nan
  | _, S754_zero _ => nan
  | S754_zero _, _ => x
  | S754_finite _ _ _, S754_infinity _ => x
  | S754_finite sx mx ex, S754_finite _ my ey =>
      let e := Z.min ex ey in
      let X := Z.shiftl (Zpos mx) (ex - e) in
      let Y := Z.shiftl (Zpos my) (ey - e) in
      of_scaled (cond_Zopp sx (Z.rem X Y)) e sx
  end.
End JS.

(** ** Signs of binary64 values

    The sign of a value as its specification shows it; used to say that a
    number is not negative while leaving room for NaN. *)

Module binary64.
(** A value that is not above zero: a zero, a negative number, or NaN. *)
Definition sf_not_positive (v : spec_float) : bool :=
  match v with
  | S754_zero _ | S754_nan => true
  | S754_infinity s | S754_finite s _ _ => s
  end.

(** A value that is not below zero: a zero, a positive number, or NaN. *)
Definition sf_not_negative (v : spec_float) : bool :=
  match v with
  | S754_zero _ | S754_nan => true
  | S754_infinity s | S754_finite s _ _ => negb s
  end.

(** A value above zero. *)
Definition sf_positive (v : spec_float) : bool :=
  match v with
  | S754_infinity s | S754_finite s _ _ => negb s
  | _ => false
  end.

(** Two numbers that are the same but for the sign of a zero. *)
Definition same_number (a b : float) : Prop :=
  a = b \/ exists s s', Prim2SF a = S754_zero s /\ Prim2SF b = S754_zero s'.

(** A number other than zero, the infinities and NaN. *)
Definition ordinary (v : float) : bool :=
  (is_finite v && negb (v =? 0))%float.
End binary64.

(** ** [src/sim.ts]: the tuning constants *)

Module sim.
Local Open Scope float_scope.

(** Production of resources as a factor of untapped. *)
Definition gainFactor : float := 0.001.
Definition birthRate : float := 1.05e-3.
Definition thirstFactor : float := 0.5.
Definition quenchDieOff : float := 0.25.
Definition hungerFactor : float := 0.5.
Definition hungerDieOff : float := 0.25.
(** Cost of transferring resources. *)
Definition transferFactor : float := 2.0e-6.
End sim.

(** ** [src/planet.ts]: resources and planets *)

Module planet.
Local Open Scope float_scope.

(** The keys of a [Resources] object. *)
Inductive ResName : Type := water | food | energy | population.

(** Container for resources. *)
Record Resources : Type := mkResources {
  res_water : float;
  res_food : float;
  res_energy : float;
  res_population : float
}.

(** [res[resName]] *)
Definition get (res : Resources) (resName : ResName) : float :=
  match resName with
  | water => res_water res
  | food => res_food res
  | energy => res_energy res
  | population => res_population res
  end.

(** [res[resName] = v] *)
Definition set (res : Resources) (resName : ResName) (v : float) : Resources :=
  match resName with
  | water => mkResources v (res_food res) (res_energy res) (res_population res)
  | food => mkResources (res_water res) v (res_energy res) (res_population res)
  | energy => mkResources (res_water res) (res_food res) v (res_population res)
  | population => mkResources (res_water res) (res_food res) (res_energy res) v
  end.

(** Simply return a resource object with all zeroes. *)
Definition zeroRes : Resources := mkResources 0 0 0 0.

(** Invert a collection of resource values. *)
Definition invert (res : Resources) : Resources :=
  mkResources (- res_water res) (- res_food res) (- res_energy res)
              (- res_population res).

(** Facts about a planet. *)
Record PlanetaryState : Type := mkPlanetaryState {
  gravity : float;
  distance : float;
  period : float;
  theta : float;
  initResources : Resources
}.

(** Track State of Planetary Objects *)
Record Planet : Type := mkPlanet {
  name : string;
  info : PlanetaryState;
  raw : Resources;
  available : Resources;
  rate : Resources;
  qolRate : float
}.

Definition with_info (p : Planet) (i : PlanetaryState) : Planet :=
  mkPlanet (name p) i (raw p) (available p) (rate p) (qolRate p).
Definition with_raw (p : Planet) (r : Resources) : Planet :=
  mkPlanet (name p) (info p) r (available p) (rate p) (qolRate p).
Definition with_available (p : Planet) (a : Resources) : Planet :=
  mkPlanet (name p) (info p) (raw p) a (rate p) (qolRate p).
Definition with_rate (p : Planet) (r : Resources) : Planet :=
  mkPlanet (name p) (info p) (raw p) (available p) r (qolRate p).
Definition with_qolRate (p : Planet) (q : float) : Planet :=
  mkPlanet (name p) (info p) (raw p) (available p) (rate p) q.
Definition with_theta (i : PlanetaryState) (t : float) : PlanetaryState :=
  mkPlanetaryState (gravity i) (distance i) (period i) t (initResources i).

(** [new Planet(name, state)]: the raw reserves are a copy of the initial
    endowment, and only the population is available at first. *)
Definition new_Planet (name : string) (state : PlanetaryState) : Planet :=
  mkPlanet name state (initResources state)
           (mkResources 0 0 0 (res_population (initResources state)))
           zeroRes 0.

(** Return true if no population exists. *)
Definition dead (p : Planet) : bool :=
  res_population (available p) =? 0.

(** [this.available.population = v] *)
Definition setPopulation (p : Planet) (v : float) : Planet :=
  with_available p (set (available p) population v).

(** [this.available.population -= 1], the first statement of [birth]. *)
Definition attrited (p : Planet) : Planet :=
  setPopulation p (res_population (available p) - 1).

(** Calculate current abundance of a raw material. *)
Definition abundance (p : Planet) (resName : ResName) : float :=
  let original := get (initResources (info p)) resName in
  get (raw p) resName / original.

(** Average water, food and energy per person. *)
Definition waterPerCapita (p : Planet) : float :=
  res_water (available p) / res_population (available p).
Definition foodPerCapita (p : Planet) : float :=
  res_food (available p) / res_population (available p).
Definition energyPerCapita (p : Planet) : float :=
  res_energy (available p) / res_population (available p).

(** The methods below are those of a planet other than the exported
    [refPlanet]: they read the reference and leave it as it is, so it
    stays as it was exported.  Of the reference they read the available
    stock only.  Module [world] below gives the methods on the heap that
    holds the reference, for a call on any object, the reference
    included, and the properties show that for another planet the two
    agree (lemma [step_apart]). *)
Section WithSetup.
(** [setup.refStd], the reference resource baseline of [src/setup.ts],
    and the host's [Math.cos] and [Math.sin], whose results the language
    leaves to the implementation. *)
Variable refStd : Resources.
Variables Math_cos Math_sin : float -> float.

(** The reference planet as the module exports it: built from [refStd],
    which is then also made available on it. *)
Definition refPlanet : Planet :=
  with_available
    (new_Planet "Reference" (mkPlanetaryState 1 1 1 1 refStd))
    refStd.

(** The amount of a resource the population needs for a day, [reqAmt]
    in [mu]. *)
Definition reqAmt (p : Planet) : float :=
  res_population (available p) * waterPerCapita refPlanet.

(** The amount mined in a day, [mining] in [mu]. *)
Definition mining (p : Planet) (resName : ResName) : float :=
  let oldAmt := get (raw p) resName in
  let mining := reqAmt p in
  let mining := mining * (1 + sim.gainFactor) in
  let mining := mining * abundance p resName in
  JS.Math_min oldAmt mining.

(** Process change of resource and return percent available changed. *)
Definition mu (p : Planet) (resName : ResName) : float * Planet :=
  let reqAmt := reqAmt p in
  let mining := mining p resName in
  let p := with_raw p (set (raw p) resName (get (raw p) resName - mining)) in
  let oldAvl := get (available p) resName in
  let p := with_available p
             (set (available p) resName
                  (get (available p) resName + (mining - reqAmt))) in
  let p := with_available p
             (set (available p) resName
                  (JS.Math_max 0 (get (available p) resName))) in
  if oldAvl =? 0 then (0, p) else ((mining - reqAmt) / oldAvl, p).

(** How much the people's thirst is quenched. *)
Definition quench (p : Planet) : float :=
  sqrt (waterPerCapita p / waterPerCapita refPlanet) - sim.thirstFactor.

(** How much the people's hunger is satisfied. *)
Definition fullness (p : Planet) : float :=
  sqrt (foodPerCapita p / foodPerCapita refPlanet) - sim.hungerFactor.

(** Average qol per person. *)
Definition qolPerCapita (p : Planet) : float :=
  if res_population (available p) =? 0 then 0
  else quench p + fullness p.

(** Average productivity per capita of the planet. *)
Definition productivity (p : Planet) : float :=
  qolPerCapita p / qolPerCapita refPlanet.

(** Birth rate per day.  The square [productivity ** 2] is the product
    of the number with itself. *)
Definition birthRate (p : Planet) : float :=
  if quench p <? 0 then - sim.quenchDieOff
  else if fullness p <? 0 then - sim.hungerDieOff
  else JS.Math_sign (productivity p) * (productivity p * productivity p)
       * sim.birthRate.

(** Perform births for a day and return percent changed.  The birth rate
    is read twice: for the growth, once the one individual is gone, and
    for the result, once the new population is stored. *)
Definition birth (p : Planet) : float * Planet :=
  let p := attrited p in
  let p := setPopulation p
             (res_population (available p) * (1 + birthRate p)) in
  let p := setPopulation p (JS.Math_round (res_population (available p))) in
  (birthRate p, p).

(** Number to measure quality of life. *)
Definition totalQol (p : Planet) : float :=
  qolPerCapita p * res_population (available p).

(** Position of the planet. *)
Definition x (p : Planet) : float :=
  distance (info p) * Math_cos (theta (info p)).
Definition y (p : Planet) : float :=
  distance (info p) * Math_sin (theta (info p)).

(** Calculate distance to another planet: the method [distance(planet)],
    named apart from the field [distance] of the planetary state. *)
Definition distanceTo (p other : Planet) : float :=
  let dx := x other - x p in
  let dy := y other - y p in
  sqrt (dx * dx + dy * dy).

(** Step forward a single day for this planet. *)
Definition step (p : Planet) : Planet :=
  let oldQol := totalQol p in
  if res_population (available p) =? 0 then p
  else
    let '(r, p) := mu p water in
    let p := with_rate p (set (rate p) water r) in
    let '(r, p) := mu p food in
    let p := with_rate p (set (rate p) food r) in
    let '(r, p) := mu p energy in
    let p := with_rate p (set (rate p) energy r) in
    let '(r, p) := birth p in
    let p := with_rate p (set (rate p) population r) in
    let p := with_info p
               (with_theta (info p)
                  (theta (info p) + (2 * JS.Math_PI) / period (info p))) in
    let p := with_info p
               (with_theta (info p)
                  (JS.rem (theta (info p)) (2 * JS.Math_PI))) in
    with_qolRate p (totalQol p / oldQol - 1).
End WithSetup.

(** The planet with everything about energy blanked: the endowment, the
    reserve, the stock and the rate. *)
Definition without_energy (p : Planet) : Planet :=
  mkPlanet (name p)
    (mkPlanetaryState (gravity (info p)) (distance (info p)) (period (info p))
       (theta (info p)) (set (initResources (info p)) energy 0))
    (set (raw p) energy 0) (set (available p) energy 0)
    (set (rate p) energy 0) (qolRate p).

(** The planet with its rates blanked. *)
Definition without_rates (p : Planet) : Planet :=
  with_qolRate (with_rate p zeroRes) 0.
End planet.

(** ** The reference planet as a shared object

    [refPlanet] is one exported object.  Every planet's [mu], [quench],
    [fullness] and [productivity] read it at the moment they run, and it is
    a [Planet] like any other, so a method can be called on it too; what
    the method then writes to [this] it writes to the reference it reads.
    The heap below holds the reference and one planet built elsewhere; a
    method takes the heap and the object it is called on.  Module [planet]
    gives the same methods for a planet other than the reference, which
    they leave as it is. *)

Module world.
Import planet.
Local Open Scope float_scope.

(** The object a method is called on: the exported [refPlanet], or a
    planet built elsewhere. *)
Inductive Obj : Type := Reference | Other.

Record Heap : Type := mkHeap {
  reference : Planet;
  other : Planet
}.

(** The object [this] as it is in the heap. *)
Definition deref (h : Heap) (this : Obj) : Planet :=
  match this with
  | Reference => reference h
  | Other => other h
  end.

(** An assignment to a field of [this]. *)
Definition assign (h : Heap) (this : Obj) (f : Planet -> Planet) : Heap :=
  match this with
  | Reference => mkHeap (f (reference h)) (other h)
  | Other => mkHeap (reference h) (f (other h))
  end.

(** The heap once the module is loaded and a planet is built. *)
Definition exported (refStd : Resources) (p : Planet) : Heap :=
  mkHeap (refPlanet refStd) p.

(** Process change of resource and return percent available changed. *)
Definition mu (h : Heap) (this : Obj) (resName : ResName) : float * Heap :=
  let oldAmt := get (raw (deref h this)) resName in
  let reqAmt :=
    res_population (available (deref h this)) * waterPerCapita (reference h) in
  let mining := reqAmt in
  let mining := mining * (1 + sim.gainFactor) in
  let mining := mining * abundance (deref h this) resName in
  let mining := JS.Math_min oldAmt mining in
  let h := assign h this
             (fun p => with_raw p (set (raw p) resName
                                       (get (raw p) resName - mining))) in
  let oldAvl := get (available (deref h this)) resName in
  let h := assign h this
             (fun p => with_available p
                         (set (available p) resName
                              (get (available p) resName
                               + (mining - reqAmt)))) in
  let h := assign h this
             (fun p => with_available p
                         (set (available p) resName
                              (JS.Math_max 0 (get (available p) resName)))) in
  if oldAvl =? 0 then (0, h) else ((mining - reqAmt) / oldAvl, h).

(** How much the people's thirst is quenched. *)
Definition quench (h : Heap) (this : Obj) : float :=
  sqrt (waterPerCapita (deref h this) / waterPerCapita (reference h))
  - sim.thirstFactor.

(** How much the people's hunger is satisfied. *)
Definition fullness (h : Heap) (this : Obj) : float :=
  sqrt (foodPerCapita (deref h this) / foodPerCapita (reference h))
  - sim.hungerFactor.

(** Average qol per person. *)
Definition qolPerCapita (h : Heap) (this : Obj) : float :=
  if res_population (available (deref h this)) =? 0 then 0
  else quench h this + fullness h this.

(** Average productivity per capita of the planet. *)
Definition productivity (h : Heap) (this : Obj) : float :=
  qolPerCapita h this / qolPerCapita h Reference.

(** Birth rate per day. *)
Definition birthRate (h : Heap) (this : Obj) : float :=
  if quench h this <? 0 then - sim.quenchDieOff
  else if fullness h this <? 0 then - sim.hungerDieOff
  else JS.Math_sign (productivity h this)
       * (productivity h this * productivity h this) * sim.birthRate.

(** Perform births for a day and return percent changed. *)
Definition birth (h : Heap) (this : Obj) : float * Heap :=
  let h := assign h this attrited in
  let h := assign h this
             (fun p => setPopulation p
                         (res_population (available p)
                          * (1 + birthRate h this))) in
  let h := assign h this
             (fun p => setPopulation p
                         (JS.Math_round (res_population (available p)))) in
  (birthRate h this, h).

(** Number to measure quality of life. *)
Definition totalQol (h : Heap) (this : Obj) : float :=
  qolPerCapita h this * res_population (available (deref h this)).

(** Step forward a single day for this planet. *)
Definition step (h : Heap) (this : Obj) : Heap :=
  let oldQol := totalQol h this in
  if res_population (available (deref h this)) =? 0 then h
  else
    let '(r, h) := mu h this water in
    let h := assign h this (fun p => with_rate p (set (rate p) water r)) in
    let '(r, h) := mu h this food in
    let h := assign h this (fun p => with_rate p (set (rate p) food r)) in
    let '(r, h) := mu h this energy in
    let h := assign h this (fun p => with_rate p (set (rate p) energy r)) in
    let '(r, h) := birth h this in
    let h := assign h this
               (fun p => with_rate p (set (rate p) population r)) in
    let h := assign h this
               (fun p => with_info p
                           (with_theta (info p)
                              (theta (info p)
                               + (2 * JS.Math_PI) / period (info p)))) in
    let h := assign h this
               (fun p => with_info p
                           (with_theta (info p)
                              (JS.rem (theta (info p)) (2 * JS.Math_PI)))) in
    assign h this (fun p => with_qolRate p (totalQol h this / oldQol - 1)).
End world.

(** ** The store of planets

    The planets of a game live in one object keyed by name, and the trade
    ledger refers to the same planet objects.  The store is an association
    list in insertion order (the order [Object.values] visits), and a
    reference to a planet is its key. *)

Module store.
Import planet.

Definition Planets : Type := list (string * Planet).

Fixpoint lookup (key : string) (ps : Planets) : option Planet :=
  match ps with
  | [] => None
  | (k, p) :: rest => if String.eqb key k then Some p else lookup key rest
  end.

(** Mutate the planet stored under [key]. *)
Fixpoint modify (key : string) (f : Planet -> Planet) (ps : Planets) : Planets :=
  match ps with
  | [] => []
  | (k, p) :: rest =>
      if String.eqb key k then (k, f p) :: rest
      else (k, p) :: modify key f rest
  end.
End store.

(** ** The trade ledger *)

Module transfer.
Import planet store.
Local Open Scope float_scope.

(** Modelled from the spec: [Transfer] of [src/transfer.ts], which is not
    among the sources; a standing flow from one planet to another, at an
    annual rate.  The planets are held by reference, here by key. *)
Record Transfer : Type := mkTransfer {
  from : string;
  to : string;
  res : Resources
}.

(** Modelled from the spec: the ledger [Trade], the registered transfers
    in the order of their registration. *)
Definition Trade : Type := list Transfer.

(** Modelled from the spec: [Trade.applyTransfer] of [src/transfer.ts],
    which is not among the sources.  It registers a new standing flow;
    registering twice gives two independent flows. *)
Definition applyTransfer (trade : Trade) (t : Transfer) : Trade :=
  trade ++ [t].

(** Modelled from the spec: the amount of one resource that leaves the
    source in a day, an annual amount divided by 365. *)
Definition daily (annual : float) : float := annual / 365.

(** Modelled from the spec: the amount that reaches the destination, the
    daily amount less a loss proportional to [transferFactor] times the
    distance between the planets. *)
Definition arriving (annual dist : float) : float :=
  daily annual * (1 - sim.transferFactor * dist).

Section WithHost.
Variables Math_cos Math_sin : float -> float.

(** Modelled from the spec: one resource of one transfer, taken from
    the source's available stock and added, less the loss, to the
    destination's.  Nothing is returned to the source and the amount
    taken is not capped. *)
Definition moveRes (dist : float) (t : Transfer) (ps : Planets)
           (r : ResName) : Planets :=
  let ps := modify (from t)
              (fun p => with_available p
                 (set (available p) r
                      (get (available p) r - daily (get (res t) r)))) ps in
  modify (to t)
    (fun p => with_available p
       (set (available p) r
            (get (available p) r + arriving (get (res t) r) dist))) ps.

(** Modelled from the spec: one day of one transfer, every resource in
    turn; a transfer whose planets are not in the store moves nothing. *)
Definition forwardOne (ps : Planets) (t : Transfer) : Planets :=
  match lookup (from t) ps, lookup (to t) ps with
  | Some src, Some dst =>
      let dist := distanceTo Math_cos Math_sin src dst in
      fold_left (moveRes dist t) [water; food; energy; population] ps
  | _, _ => ps
  end.

(** Modelled from the spec: [Trade.forward] of [src/transfer.ts], run
    once per simulated day over every registered transfer. *)
Definition forward (trade : Trade) (ps : Planets) : Planets :=
  fold_left forwardOne trade ps.
End WithHost.
End transfer.

(** ** [src/game.ts]: the simulation driver *)

Module game.
Import planet store transfer.
Local Open Scope float_scope.

(** The simulation state of the master game object; the terminal, the
    prompter and the command table are presentation and are left out. *)
Record Game : Type := mkGame {
  gameOver : bool;
  currentDay : float;
  planets : Planets;
  trade : Trade;
  qolScore : float
}.

(** Every planet of the store is dead. *)
Definition all_dead (ps : Planets) : bool :=
  forallb (fun kp => dead (snd kp)) ps.

(** The two errors [forward] throws on its arguments. *)
Inductive ForwardError : Type :=
| OutOfBounds (dps : float)
| VisualPeriod (visPer : float).

(** The check of the arguments at the head of [forward]. *)
Definition checkArgs (dps visPer : float) : option ForwardError :=
  if negb (0 <? dps) && negb (dps <? JS.MAX_SAFE_INTEGER)
  then Some (OutOfBounds dps)
  else if negb (0 <? visPer) then Some (VisualPeriod visPer)
  else None.

(** The default refresh period of [forward]. *)
Definition visPerDefault : float := 1000 / 10.

Definition endGame (g : Game) : Game :=
  mkGame true (currentDay g) (planets g) (trade g) (qolScore g).

Section WithSetup.
Variable refStd : Resources.
Variables Math_cos Math_sin : float -> float.

(** The loop over the planets in [update]: each one is stepped, then
    counted as alive or not, then its quality of life is added to the
    score. *)
Fixpoint stepPlanets (ps : Planets) (someAlive : bool) (score : float)
  : Planets * bool * float :=
  match ps with
  | [] => ([], someAlive, score)
  | (k, p) :: rest =>
      let p := step refStd p in
      let someAlive := someAlive || negb (dead p) in
      let score := score + totalQol refStd p in
      let '(rest, someAlive, score) := stepPlanets rest someAlive score in
      ((k, p) :: rest, someAlive, score)
  end.

(** Update the game world by one day, returns false if all planets died. *)
Definition update (g : Game) : bool * Game :=
  let '(ps, someAlive, score) := stepPlanets (planets g) false (qolScore g) in
  let ps := transfer.forward Math_cos Math_sin (trade g) ps in
  (someAlive, mkGame (gameOver g) (currentDay g + 1) ps (trade g) score).

(** The inner loop of [forward]: updates run while the queue holds a
    whole day and the refresh timer has not fired; [budget] is the
    number of updates the timer lets through.  The first component
    tells whether the game ended. *)
Fixpoint drain (budget : nat) (queue : float) (g : Game)
  : bool * float * Game :=
  match budget with
  | O => (false, queue, g)
  | S budget =>
      if 1 <=? queue then
        let '(someAlive, g) := update g in
        if someAlive then drain budget (queue - 1) g
        else (true, queue, endGame g)
      else (false, queue, g)
  end.

(** The outer loop of [forward].  The schedule has one entry per
    refresh period that starts before the player hits "q": the number
    of updates that fit into it. *)
Fixpoint periods (sched : list nat) (dps visPer queue : float) (g : Game)
  : Game :=
  match sched with
  | [] => g
  | budget :: sched =>
      let queue := if queue <? 1 then queue + (dps * visPer) / 1000
                   else queue in
      let '(ended, queue, g) := drain budget queue g in
      if ended then g else periods sched dps visPer queue g
  end.

(** Step simulation at a (dps, days per second), refreshing screen every
    period (visPer). *)
Definition forward (dps visPer : float) (sched : list nat) (g : Game)
  : ForwardError + Game :=
  match checkArgs dps visPer with
  | Some e => inl e
  | None => inr (periods sched dps visPer 0 g)
  end.

(** Alive after its own step. *)
Definition survives (kp : string * Planet) : bool :=
  negb (dead (step refStd (snd kp))).

End WithSetup.
End game.

(** ** Concrete planets and games *)

Module examples.
Import planet store transfer game.
Local Open Scope float_scope.

(** A reference baseline: per person and day 4 L of water, 2 kg of food
    and 8 J of energy. *)
Definition refStd : Resources := mkResources 4 2 8 1.

(** The host's cosine and sine at the angle zero, the only angle the
    examples below place a planet at. *)
Definition Math_cos (t : float) : float := if t =? 0 then 1 else nan.
Definition Math_sin (t : float) : float := if t =? 0 then t else nan.

Definition orbit (init : Resources) : PlanetaryState :=
  mkPlanetaryState 1 1 365 0 init.

Definition ample : Resources := mkResources 1e9 1e9 1e9 100.

(** A living planet whose people have a quarter of the reference water
    and food each, so that its total quality of life is zero. *)
Definition colony : Planet :=
  with_available (new_Planet "colony" (orbit ample))
                 (mkResources 100 50 0 100).

(** A planet of 100 whose stock is a quarter of the reference for 99. *)
Definition settlers : Planet :=
  with_available (new_Planet "settlers" (orbit ample))
                 (mkResources 99 49.5 0 100).

(** A living planet that has mined out its water and its food. *)
Definition exhausted : Planet :=
  with_raw
    (with_available (new_Planet "exhausted" (orbit ample))
                    (mkResources 1000 1000 0 100))
    (mkResources 0 0 1e9 100).

(** A newly built planet that was never given any energy. *)
Definition dark : Planet :=
  new_Planet "dark" (orbit (mkResources 1e9 1e9 0 100)).

(** A planet on which a fifth of a person is left, as a transfer of
    population at a daily fraction of an annual amount leaves behind. *)
Definition remnant : Planet :=
  with_available (new_Planet "remnant" (orbit ample))
                 (mkResources 0 0 0 0.2).

(** Two planets without population. *)
Definition moon : Planet :=
  new_Planet "moon" (orbit (mkResources 1e9 1e9 1e9 0)).
Definition rock : Planet :=
  new_Planet "rock" (orbit (mkResources 5e8 0 0 0)).

(** A game in which every planet is dead. *)
Definition deadGame : Game :=
  mkGame false 0 [("moon"%string, moon); ("rock"%string, rock)] [] 0.

(** A game with one living planet. *)
Definition liveGame : Game :=
  mkGame false 0 [("colony"%string, colony)] [] 0.

(** A planet of five with water for four and food in plenty. *)
Definition hamlet : Planet :=
  with_available (new_Planet "hamlet" (orbit ample))
                 (mkResources 4.5 100 0 5).

(** Two planets at the same place and a flow of 365 L of water a year
    from the first to the second. *)
Definition twins : Planets :=
  [("colony"%string, colony); ("settlers"%string, settlers)].
Definition aqueduct : Transfer :=
  mkTransfer "colony" "settlers" (mkResources 365 0 0 0).
End examples.

(** * Properties *)

Import binary64 planet store transfer game.
Local Open Scope float_scope.

(** The operations on [float] are specified by their images under
    [Prim2SF]; this rewrites with those specifications. *)
Ltac to_spec :=
  rewrite ?add_spec, ?sub_spec, ?mul_spec, ?div_spec, ?eqb_spec, ?ltb_spec,
          ?leb_spec, ?abs_spec.

(** ** Binary64 facts

    The few cases of the specification the proofs below need. *)

Lemma Prim2SF_zero : Prim2SF 0 = S754_zero false.
Proof. reflexivity. Qed.

(** A number that is [<= 0] is not [> 0]. *)
Lemma leb_zero_not_pos (v : float) : (v <=? 0) = true -> (0 <? v) = false.
Proof.
  rewrite leb_spec, ltb_spec, Prim2SF_zero. unfold SFleb, SFltb.
  destruct (Prim2SF v) as [s | s | | s m e]; cbn; try reflexivity;
    destruct s; try reflexivity; discriminate.
Qed.

Lemma eqb_zero_inv (v : float) :
  (v =? 0) = true -> exists s, Prim2SF v = S754_zero s.
Proof.
  rewrite eqb_spec, Prim2SF_zero. unfold SFeqb.
  destruct (Prim2SF v) as [s | s | | s m e]; cbn; try discriminate.
  - intros _. now exists s.
  - destruct s; discriminate.
  - destruct s; discriminate.
Qed.

Lemma eqb_zero_intro (v : float) (s : bool) :
  Prim2SF v = S754_zero s -> (v =? 0) = true.
Proof. intros H. now rewrite eqb_spec, Prim2SF_zero, H. Qed.

Lemma ltb_zero_inv (v : float) :
  (0 <? v) = true ->
  Prim2SF v = S754_infinity false \/
  exists m e, Prim2SF v = S754_finite false m e.
Proof.
  rewrite ltb_spec, Prim2SF_zero. unfold SFltb.
  destruct (Prim2SF v) as [s | s | | s m e]; cbn; try discriminate.
  - destruct s; try discriminate. now left.
  - destruct s; try discriminate. right. now exists m, e.
Qed.

Lemma is_finite_inv (v : float) :
  is_finite v = true ->
  (exists s, Prim2SF v = S754_zero s) \/
  exists s m e, Prim2SF v = S754_finite s m e.
Proof.
  unfold is_finite, is_nan, is_infinity. to_spec.
  replace (Prim2SF infinity) with (S754_infinity false) by reflexivity.
  unfold SFeqb.
  destruct (Prim2SF v) as [s | s | | s m e]; cbn; try discriminate.
  - intros _. left. now exists s.
  - destruct s; discriminate.
  - intros _. right. now exists s, m, e.
Qed.

(** Adding the opposite of a non-zero number is subtracting it. *)
Lemma SFadd_opp (a b : spec_float) :
  (forall s, b <> S754_zero s) ->
  SF64add a (SFopp b) = SF64sub a b.
Proof.
  intros Hb. unfold SF64add, SF64sub.
  destruct a as [sa | sa | | sa ma ea], b as [sb | sb | | sb mb eb];
    try reflexivity; try (now destruct (Hb sb)).
  - destruct sa, sb; reflexivity.
  - cbn [SFopp SFadd SFsub]. f_equal. destruct sb; cbn [negb cond_Zopp]; lia.
Qed.

Lemma is_nan_zero (v : float) (s : bool) :
  Prim2SF v = S754_zero s -> is_nan v = false.
Proof. intros H. unfold is_nan. now rewrite eqb_spec, H. Qed.

Lemma Math_min_zeros (a b : float) (sa sb : bool) :
  Prim2SF a = S754_zero sa -> Prim2SF b = S754_zero sb ->
  exists s, Prim2SF (JS.Math_min a b) = S754_zero s.
Proof.
  intros Ha Hb. unfold JS.Math_min.
  rewrite (is_nan_zero a sa Ha), (is_nan_zero b sb Hb), !ltb_spec, Ha, Hb.
  cbn -[get_sign]. destruct (get_sign a); eauto.
Qed.

Lemma Math_max_zero (z : float) (s : bool) :
  Prim2SF z = S754_zero s -> JS.Math_max 0 z = 0.
Proof.
  intros Hz. unfold JS.Math_max.
  rewrite (is_nan_zero z s Hz), !ltb_spec, Hz, Prim2SF_zero.
  reflexivity.
Qed.

Lemma sub_zeros (a b : float) (sa sb : bool) :
  Prim2SF a = S754_zero sa -> Prim2SF b = S754_zero sb ->
  exists s, Prim2SF (a - b) = S754_zero s.
Proof.
  intros Ha Hb. rewrite sub_spec, Ha, Hb. destruct sa, sb; cbn; eauto.
Qed.

Lemma Prim2SF_gain :
  Prim2SF (1 + sim.gainFactor) = S754_finite false 4508103226997866 (-52).
Proof. reflexivity. Qed.

(** If the consumption with the mining gain applied is finite, so is the
    consumption itself. *)
Lemma gain_finite_inv (v : float) :
  is_finite (v * (1 + sim.gainFactor)) = true ->
  (exists s, Prim2SF v = S754_zero s /\
             Prim2SF (v * (1 + sim.gainFactor)) = S754_zero s) \/
  exists s m e, Prim2SF v = S754_finite s m e.
Proof.
  intros H. apply is_finite_inv in H. revert H.
  rewrite mul_spec, Prim2SF_gain.
  destruct (Prim2SF v) as [s | s | | s m e].
  - intros _. left. exists s. split; [reflexivity |].
    unfold SF64mul. cbn. now destruct s.
  - unfold SF64mul. cbn [SFmul].
    intros [[s' H] | (s' & m' & e' & H)]; discriminate.
  - unfold SF64mul. cbn [SFmul].
    intros [[s' H] | (s' & m' & e' & H)]; discriminate.
  - intros _. right. now exists s, m, e.
Qed.

(** The clamp [Math.max(0, v)] is never negative; it is NaN when [v] is. *)
Lemma Math_max_zero_not_negative (v : float) :
  (JS.Math_max 0 v <? 0) = false.
Proof.
  unfold JS.Math_max. change (is_nan 0) with false. cbn [orb].
  destruct (is_nan v); [reflexivity |].
  destruct (0 <? v) eqn:Hpos.
  - revert Hpos. rewrite (ltb_spec 0 v), (ltb_spec v 0), Prim2SF_zero.
    unfold SFltb.
    destruct (Prim2SF v) as [s | s | | s m e]; cbn; try discriminate;
      destruct s; try discriminate; reflexivity.
  - destruct (v <? 0) eqn:Hneg; [reflexivity |].
    change (get_sign 0) with false. reflexivity.
Qed.

(** A number that is [<= 0] is below [MAX_SAFE_INTEGER]. *)
Lemma leb_zero_below_max (v : float) :
  (v <=? 0) = true -> (v <? JS.MAX_SAFE_INTEGER) = true.
Proof.
  rewrite leb_spec, ltb_spec, Prim2SF_zero.
  replace (Prim2SF JS.MAX_SAFE_INTEGER)
    with (S754_finite false 9007199254740991 0) by reflexivity.
  unfold SFleb, SFltb.
  destruct (Prim2SF v) as [s | s | | s m e]; try destruct s;
    intros H; (reflexivity || discriminate H).
Qed.

(** A quotient by zero, less one, is an infinity or NaN, never zero. *)
Lemma div_zero_less_one (a z : float) :
  (z =? 0) = true -> (a / z - 1 =? 0) = false.
Proof.
  intros H. destruct (eqb_zero_inv z H) as [s Hz].
  rewrite eqb_spec, sub_spec, div_spec, Hz, Prim2SF_zero.
  replace (Prim2SF 1) with (S754_finite false 4503599627370496 (-52))
    by reflexivity.
  destruct (Prim2SF a) as [sa | sa | | sa ma ea]; cbn;
    try reflexivity; destruct sa, s; reflexivity.
Qed.

(** ** Projections of the state-passing helpers *)

Lemma get_set_same (res : Resources) (r : ResName) (v : float) :
  get (set res r v) r = v.
Proof. destruct r; reflexivity. Qed.

Lemma get_set_other (res : Resources) (r r' : ResName) (v : float) :
  r <> r' -> get (set res r v) r' = get res r'.
Proof. destruct r, r'; intros H; try reflexivity; now destruct H. Qed.

(** ** What [mu] and [birth] leave alone *)

Section StepFacts.
Variable refStd : Resources.

(** [mu] touches the raw reserve and the available stock of its resource
    and nothing else. *)
Lemma mu_frame (p : Planet) (r : ResName) :
  let p' := snd (mu refStd p r) in
  name p' = name p /\ info p' = info p /\ rate p' = rate p /\
  qolRate p' = qolRate p /\
  forall r', r' <> r ->
    get (raw p') r' = get (raw p) r' /\
    get (available p') r' = get (available p) r'.
Proof.
  unfold mu. cbn zeta.
  destruct (get (available _) r =? 0); cbn [snd];
    (repeat split; try reflexivity;
     cbn [raw available with_raw with_available];
     rewrite ?get_set_other by congruence; reflexivity).
Qed.

(** [birth] touches the available population and nothing else. *)
Lemma birth_frame (p : Planet) :
  let p' := snd (birth refStd p) in
  name p' = name p /\ info p' = info p /\ raw p' = raw p /\
  rate p' = rate p /\ qolRate p' = qolRate p /\
  forall r', r' <> population ->
    get (available p') r' = get (available p) r'.
Proof.
  unfold birth. cbn. repeat split.
  intros r' Hr'. destruct r'; try reflexivity. now destruct Hr'.
Qed.
End StepFacts.

(** ** Depletion and consumption *)

(** Whatever the resource, the consumption [mu] charges is the population
    times the reference water per person. *)
Lemma mu_available (refStd : Resources) (p : Planet) (r : ResName) :
  get (available (snd (mu refStd p r))) r =
  JS.Math_max 0
    (get (available p) r +
     (mining refStd p r -
      res_population (available p) * waterPerCapita (refPlanet refStd))).
Proof.
  unfold mu. cbn zeta.
  destruct (get (available _) r =? 0); cbn [snd available with_available with_raw];
    now rewrite !get_set_same.
Qed.

(** So the stock [mu] leaves is never negative, whatever the planet. *)
Lemma mu_available_not_negative (refStd : Resources) (p : Planet)
      (r : ResName) :
  (get (available (snd (mu refStd p r))) r <? 0) = false.
Proof. rewrite mu_available. apply Math_max_zero_not_negative. Qed.

(** The reserve [mu] leaves is the old one less what was mined. *)
Lemma mu_raw (refStd : Resources) (p : Planet) (r : ResName) :
  get (raw (snd (mu refStd p r))) r = get (raw p) r - mining refStd p r.
Proof.
  unfold mu. cbn zeta.
  destruct (get (available _) r =? 0); cbn [snd raw with_available with_raw];
    now rewrite !get_set_same.
Qed.

(** C1.  The consumption [mu] computes for food is not the population times
    the reference food per person: on a planet of 100, with a reference of
    4 L of water and 2 kg of food per person, [mu] charges 400 for food,
    the water figure, where the food figure is 200; with the food reserve
    mined out the available food falls from 1000 to 600. *)
Theorem mu_food_charged_at_water_rate :
  let p := examples.exhausted in
  let ref := refPlanet examples.refStd in
  reqAmt examples.refStd p = 400 /\
  res_population (available p) * waterPerCapita ref = 400 /\
  res_population (available p) * foodPerCapita ref = 200 /\
  res_population (available p) * energyPerCapita ref = 800 /\
  get (available p) food = 1000 /\
  get (available (snd (mu examples.refStd p food))) food = 600.
Proof. repeat split. Qed.

Section Exhausted.
Variable refStd : Resources.
Variable p : Planet.
Variable r : ResName.
Hypothesis endowed : (0 <? get (initResources (info p)) r) = true.
Hypothesis mined_out : (get (raw p) r =? 0) = true.
Hypothesis finite :
  is_finite (reqAmt refStd p * (1 + sim.gainFactor)) = true.

(** Nothing is left to mine, so nothing is mined. *)
Lemma mining_exhausted :
  exists s, Prim2SF (mining refStd p r) = S754_zero s.
Proof.
  destruct (eqb_zero_inv _ mined_out) as [s0 Hraw].
  assert (Hab : Prim2SF (abundance p r) = S754_zero s0).
  { unfold abundance. rewrite div_spec, Hraw.
    destruct (ltb_zero_inv _ endowed) as [Ho | (m & e & Ho)];
      rewrite Ho; unfold SF64div; cbn; now destruct s0. }
  assert (Hm : exists s, Prim2SF (reqAmt refStd p * (1 + sim.gainFactor)
                                  * abundance p r) = S754_zero s).
  { rewrite mul_spec, Hab.
    destruct (is_finite_inv _ finite) as [[s1 H1] | (s1 & m1 & e1 & H1)];
      rewrite H1; unfold SF64mul; cbn; eauto. }
  destruct Hm as [s2 Hm].
  unfold mining. cbn zeta. exact (Math_min_zeros _ _ _ _ Hraw Hm).
Qed.

(** The stock falls by the consumption and is clamped at zero. *)
Lemma available_exhausted :
  JS.Math_max 0 (get (available p) r + (mining refStd p r - reqAmt refStd p))
  = JS.Math_max 0 (get (available p) r - reqAmt refStd p).
Proof.
  destruct mining_exhausted as [sm Hm].
  destruct (gain_finite_inv _ finite) as [(sr & Hr & _) | (sr & mr & er & Hr)].
  - (* no consumption at all *)
    destruct (sub_zeros _ _ _ _ Hm Hr) as [sd Hd].
    destruct (Prim2SF (get (available p) r)) as [sa | sa | | sa ma ea] eqn:Ha.
    + assert (H1 : exists s, Prim2SF (get (available p) r +
                     (mining refStd p r - reqAmt refStd p)) = S754_zero s).
      { rewrite add_spec, Ha, Hd. destruct sa, sd; cbn; eauto. }
      assert (H2 : exists s, Prim2SF (get (available p) r - reqAmt refStd p)
                             = S754_zero s).
      { rewrite sub_spec, Ha, Hr. destruct sa, sr; cbn; eauto. }
      destruct H1 as [s1 H1], H2 as [s2 H2].
      now rewrite (Math_max_zero _ _ H1), (Math_max_zero _ _ H2).
    + f_equal. apply Prim2SF_inj. rewrite add_spec, !sub_spec, Ha, Hm, Hr.
      now destruct sm, sr.
    + f_equal. apply Prim2SF_inj. rewrite add_spec, !sub_spec, Ha, Hm, Hr.
      now destruct sm, sr.
    + f_equal. apply Prim2SF_inj. rewrite add_spec, !sub_spec, Ha, Hm, Hr.
      now destruct sm, sr.
  - (* the whole consumption is taken from the stock *)
    f_equal. apply Prim2SF_inj.
    rewrite add_spec, (sub_spec (get (available p) r)).
    rewrite <- SFadd_opp by (rewrite Hr; discriminate).
    f_equal. now rewrite sub_spec, Hm, Hr.
Qed.
End Exhausted.

(** On a planet whose endowment of a resource is positive and whose raw
    reserve of it is 0, [mu] mines zero, leaves the reserve at 0, and
    lowers the available stock by [reqAmt], clamped at 0: by the amount
    [mu] computes, which is the water figure whatever the resource.  The
    amount is a number here: with the mining gain applied it is finite. *)
Lemma mu_exhausted_by_reqAmt (refStd : Resources) (p : Planet) (r : ResName) :
  (0 <? get (initResources (info p)) r) = true ->
  (get (raw p) r =? 0) = true ->
  is_finite (reqAmt refStd p * (1 + sim.gainFactor)) = true ->
  let p' := snd (mu refStd p r) in
  (mining refStd p r =? 0) = true /\
  (get (raw p') r =? 0) = true /\
  get (available p') r =
  JS.Math_max 0 (get (available p) r - reqAmt refStd p).
Proof.
  intros Hinit Hraw Hfin. cbn zeta.
  destruct (mining_exhausted refStd p r Hinit Hraw Hfin) as [sm Hm].
  destruct (eqb_zero_inv _ Hraw) as [s0 H0].
  split; [exact (eqb_zero_intro _ _ Hm) |]. split.
  - rewrite mu_raw. destruct (sub_zeros _ _ _ _ H0 Hm) as [s Hs].
    exact (eqb_zero_intro _ _ Hs).
  - rewrite mu_available.
    exact (available_exhausted refStd p r Hinit Hraw Hfin).
Qed.

(** C7.  With the food reserve mined out and a positive endowment [mu]
    mines nothing and leaves the reserve at 0, but the available food does
    not fall by the required daily consumption of food: on a planet of
    100, with a reference of 2 kg of food per person, that consumption is
    200 and would leave 800 of 1000, and [mu] takes 400, the water figure,
    and leaves 600. *)
Theorem mu_exhausted_reserve_food :
  let p := examples.exhausted in
  let ref := refPlanet examples.refStd in
  let required := res_population (available p) * foodPerCapita ref in
  let p' := snd (mu examples.refStd p food) in
  (0 <? get (initResources (info p)) food) = true /\
  get (raw p) food = 0 /\
  mining examples.refStd p food = 0 /\
  get (raw p') food = 0 /\
  get (available p) food = 1000 /\
  required = 200 /\
  JS.Math_max 0 (get (available p) food - required) = 800 /\
  get (available p') food = 600.
Proof. repeat split. Qed.

(** ** The population update *)




(** The rate [birth] uses is not the rate of the planet as it was on entry:
    with five people and water for four, the rate on entry is the die-off
    rate, which would leave 3, but the rate read after the subtraction is
    positive and 4 remain. *)
Lemma birth_reads_rate_after_attrition :
  let p := examples.hamlet in
  birthRate examples.refStd p = -0.25 /\
  JS.Math_round ((res_population (available p) - 1) *
                 (1 + birthRate examples.refStd p)) = 3 /\
  (0 <? birthRate examples.refStd (attrited p)) = true /\
  res_population (available (snd (birth examples.refStd p))) = 4.
Proof. repeat split. Qed.

(** ** The daily step *)

(** [step] returns at once on a dead planet. *)
Lemma step_of_dead (refStd : Resources) (p : Planet) :
  dead p = true -> step refStd p = p.
Proof.
  unfold dead, step. intros Hdead. now rewrite Hdead.
Qed.

(** C3.  A planet whose available population is zero is left exactly as it
    was by [step]: its raw reserves, available stock, rates, [qolRate] and
    orbital angle are all unchanged. *)
Theorem step_dead_frozen (refStd : Resources) (p : Planet) :
  dead p = true ->
  let p' := step refStd p in
  raw p' = raw p /\ available p' = available p /\ rate p' = rate p /\
  qolRate p' = qolRate p /\ theta (info p') = theta (info p) /\
  p' = p.
Proof.
  intros Hdead. cbn zeta. rewrite (step_of_dead refStd p Hdead).
  repeat split.
Qed.

Lemma step_dead_frozen_witness :
  dead examples.moon = true /\
  step examples.refStd examples.moon = examples.moon.
Proof.
  split; [reflexivity |].
  apply (step_dead_frozen examples.refStd examples.moon). reflexivity.
Defined.

(** C10.  [step] never changes, on any planet, alive or dead, the name, the
    gravity, the orbital distance, the orbital period, the stored initial
    endowment or the raw population; what may change is the angle, the raw
    water, food and energy, the available stock, the rates and [qolRate]. *)
Theorem step_frame (refStd : Resources) (p : Planet) :
  let p' := step refStd p in
  name p' = name p /\
  gravity (info p') = gravity (info p) /\
  distance (info p') = distance (info p) /\
  period (info p') = period (info p) /\
  initResources (info p') = initResources (info p) /\
  res_population (raw p') = res_population (raw p).
Proof.
  unfold step.
  destruct (res_population (available p) =? 0); [cbn; repeat split |].
  destruct (mu refStd p water) as [r1 p1] eqn:E1.
  pose proof (mu_frame refStd p water) as F1. rewrite E1 in F1. cbn [snd] in F1.
  set (q1 := with_rate p1 (set (rate p1) water r1)).
  destruct (mu refStd q1 food) as [r2 p2] eqn:E2.
  pose proof (mu_frame refStd q1 food) as F2. rewrite E2 in F2. cbn [snd] in F2.
  set (q2 := with_rate p2 (set (rate p2) food r2)).
  destruct (mu refStd q2 energy) as [r3 p3] eqn:E3.
  pose proof (mu_frame refStd q2 energy) as F3. rewrite E3 in F3. cbn [snd] in F3.
  set (q3 := with_rate p3 (set (rate p3) energy r3)).
  destruct (birth refStd q3) as [r4 p4] eqn:E4.
  pose proof (birth_frame refStd q3) as F4. rewrite E4 in F4. cbn [snd] in F4.
  destruct F1 as (N1 & I1 & _ & _ & R1), F2 as (N2 & I2 & _ & _ & R2),
           F3 as (N3 & I3 & _ & _ & R3), F4 as (N4 & I4 & R4 & _).
  destruct (R1 population) as [R1p _]; [discriminate |].
  destruct (R2 population) as [R2p _]; [discriminate |].
  destruct (R3 population) as [R3p _]; [discriminate |].
  cbn [name info raw with_qolRate with_info with_theta with_rate gravity
       distance period initResources].
  assert (Hinfo : info p4 = info p).
  { rewrite I4. unfold q3. cbn [info with_rate]. rewrite I3. unfold q2.
    cbn [info with_rate]. rewrite I2. unfold q1. cbn [info with_rate].
    exact I1. }
  rewrite Hinfo, N4, R4. unfold q3. cbn [name raw with_rate].
  rewrite N3. unfold get in R3p. rewrite R3p. unfold q2. cbn [name raw with_rate].
  rewrite N2. unfold get in R2p. rewrite R2p. unfold q1. cbn [name raw with_rate].
  rewrite N1. unfold get in R1p. rewrite R1p.
  repeat split.
Qed.

(** C2.  [step] does not keep the reserves and the stock non-negative on
    every planet the claim covers: a newly built planet with no energy
    endowment satisfies [0 <= raw <= initial] and [available >= 0], and
    after one [step] its raw and its available energy are NaN, which is
    not [>= 0]. *)
Theorem step_breaks_bounds_without_endowment :
  let p := examples.dark in
  let p' := step examples.refStd p in
  (forall r, (0 <=? get (initResources (info p)) r) = true /\
             (0 <=? get (raw p) r) = true /\
             (get (raw p) r <=? get (initResources (info p)) r) = true /\
             (0 <=? get (available p) r) = true) /\
  abundance p energy = nan /\
  get (raw p') energy = nan /\
  get (available p') energy = nan /\
  (0 <=? get (raw p') energy) = false /\
  (get (raw p') energy <=? get (initResources (info p')) energy) = false /\
  (0 <=? get (available p') energy) = false.
Proof.
  cbn zeta. split; [intros r; destruct r; repeat split | repeat split].
Qed.

(** What the clamp does keep: on a living planet the available water,
    food and energy are never negative after [step]; NaN is the only way
    out of [>= 0] for them. *)
Lemma step_available_not_negative (refStd : Resources) (p : Planet)
      (r : ResName) :
  r <> population ->
  dead p = false ->
  (get (available (step refStd p)) r <? 0) = false.
Proof.
  intros Hr Halive. unfold step, dead in *. rewrite Halive.
  pose proof (mu_frame refStd p water) as F1.
  pose proof (mu_available_not_negative refStd p water) as A1.
  destruct (mu refStd p water) as [r1 p1]. cbn [snd] in F1, A1.
  set (q1 := with_rate p1 (set (rate p1) water r1)).
  pose proof (mu_frame refStd q1 food) as F2.
  pose proof (mu_available_not_negative refStd q1 food) as A2.
  destruct (mu refStd q1 food) as [r2 p2]. cbn [snd] in F2, A2.
  set (q2 := with_rate p2 (set (rate p2) food r2)).
  pose proof (mu_frame refStd q2 energy) as F3.
  pose proof (mu_available_not_negative refStd q2 energy) as A3.
  destruct (mu refStd q2 energy) as [r3 p3]. cbn [snd] in F3, A3.
  set (q3 := with_rate p3 (set (rate p3) energy r3)).
  pose proof (birth_frame refStd q3) as F4.
  destruct (birth refStd q3) as [r4 p4]. cbn [snd] in F4.
  destruct F2 as (_ & _ & _ & _ & R2), F3 as (_ & _ & _ & _ & R3),
           F4 as (_ & _ & _ & _ & _ & R4).
  cbn [available with_qolRate with_info with_rate].
  rewrite (R4 r Hr). unfold q3. cbn [available with_rate].
  destruct r; try (now destruct Hr).
  - destruct (R3 water) as [_ ->]; [discriminate |].
    unfold q2. cbn [available with_rate].
    destruct (R2 water) as [_ ->]; [discriminate |]. exact A1.
  - destruct (R3 food) as [_ ->]; [discriminate |]. exact A2.
  - exact A3.
Qed.

(** A second way out of the bounds: a population between 0 and 1, which a
    transfer of population leaves behind, is not [>= 0] after [step]. *)
Lemma step_breaks_bounds_fractional_population :
  let p := examples.remnant in
  let p' := step examples.refStd p in
  (forall r, (0 <=? get (raw p) r) = true /\
             (get (raw p) r <=? get (initResources (info p)) r) = true /\
             (0 <=? get (available p) r) = true) /\
  (0 <=? get (available p') population) = false.
Proof.
  cbn zeta. split; [intros r; destruct r; repeat split | reflexivity].
Qed.

(** C4.  The quality-of-life rate is not guarded against a zero divisor:
    on a living planet whose total quality of life is 0 before [step], the
    recorded [qolRate] is [Infinity], not 0. *)
Theorem step_qolRate_unguarded :
  let p := examples.colony in
  dead p = false /\
  totalQol examples.refStd p = 0 /\
  qolRate (step examples.refStd p) = infinity /\
  (qolRate (step examples.refStd p) =? 0) = false.
Proof. repeat split. Qed.

(** The same on every planet: whenever a living planet's total quality of
    life is 0 before [step], the recorded [qolRate] is not 0. *)
Lemma step_qolRate_never_zero (refStd : Resources) (p : Planet) :
  dead p = false ->
  (totalQol refStd p =? 0) = true ->
  (qolRate (step refStd p) =? 0) = false.
Proof.
  unfold dead, step. intros Halive Hqol. rewrite Halive.
  destruct (mu refStd p water) as [r1 p1].
  destruct (mu refStd _ food) as [r2 p2].
  destruct (mu refStd _ energy) as [r3 p3].
  destruct (birth refStd _) as [r4 p4].
  cbn [qolRate with_qolRate]. now apply div_zero_less_one.
Qed.

(** ** The store *)

Lemma lookup_modify_same (key : string) (f : Planet -> Planet) (ps : Planets) :
  lookup key (modify key f ps) = option_map f (lookup key ps).
Proof.
  induction ps as [| [k q] rest IH]; [reflexivity |].
  cbn. destruct (String.eqb key k) eqn:E; cbn; rewrite E; [reflexivity | exact IH].
Qed.

Lemma lookup_modify_other (key key' : string) (f : Planet -> Planet)
      (ps : Planets) :
  key <> key' -> lookup key (modify key' f ps) = lookup key ps.
Proof.
  intros Hne. induction ps as [| [k q] rest IH]; [reflexivity |].
  cbn. destruct (String.eqb key' k) eqn:E'; cbn.
  - apply String.eqb_eq in E'. subst k.
    apply String.eqb_neq in Hne. now rewrite Hne.
  - destruct (String.eqb key k); [reflexivity | exact IH].
Qed.

(** ** The trade ledger *)

Section Ledger.
Variables cos sin : float -> float.

(** A newly registered transfer runs after the ones registered before. *)
Lemma forward_applyTransfer (trade : Trade) (t : Transfer) (ps : Planets) :
  transfer.forward cos sin (applyTransfer trade t) ps =
  forwardOne cos sin (transfer.forward cos sin trade ps) t.
Proof.
  unfold transfer.forward, applyTransfer. now rewrite fold_left_app.
Qed.

Lemma moveRes_from (d : float) (t : Transfer) (ps : Planets) (r : ResName) :
  from t <> to t ->
  lookup (from t) (moveRes d t ps r) =
  option_map (fun q => with_available q
                (set (available q) r
                     (get (available q) r - daily (get (res t) r))))
             (lookup (from t) ps).
Proof.
  intros Hne. unfold moveRes.
  now rewrite lookup_modify_other, lookup_modify_same.
Qed.

Lemma moveRes_to (d : float) (t : Transfer) (ps : Planets) (r : ResName) :
  from t <> to t ->
  lookup (to t) (moveRes d t ps r) =
  option_map (fun q => with_available q
                (set (available q) r
                     (get (available q) r + arriving (get (res t) r) d)))
             (lookup (to t) ps).
Proof.
  intros Hne. unfold moveRes.
  rewrite lookup_modify_same, lookup_modify_other by congruence.
  reflexivity.
Qed.

(** One day of one transfer between two different planets of the store. *)
Lemma forwardOne_moves (t : Transfer) (ps : Planets) (src dst : Planet) :
  from t <> to t ->
  lookup (from t) ps = Some src ->
  lookup (to t) ps = Some dst ->
  let dist := distanceTo cos sin src dst in
  exists src' dst',
    lookup (from t) (forwardOne cos sin ps t) = Some src' /\
    lookup (to t) (forwardOne cos sin ps t) = Some dst' /\
    forall r,
      get (available src') r = get (available src) r - daily (get (res t) r) /\
      get (available dst') r =
      get (available dst) r + arriving (get (res t) r) dist.
Proof.
  intros Hne Hsrc Hdst dist. unfold forwardOne. rewrite Hsrc, Hdst.
  fold dist. cbn [fold_left].
  rewrite !moveRes_from, !moveRes_to, Hsrc, Hdst by exact Hne.
  cbn [option_map]. do 2 eexists. split; [reflexivity |].
  split; [reflexivity |].
  intros r. destruct r; split; reflexivity.
Qed.
End Ledger.

(** C9.  A registered transfer, at one call of the ledger's [forward],
    takes [annual / 365] of each resource from the source's available
    stock and adds it to the destination's, less a loss of
    [transferFactor] times the distance between the planets; at an annual
    rate of 365 of water and distance 0, exactly 1 arrives. *)
Theorem forward_moves_transfer (cos sin : float -> float) (trade : Trade)
        (t : Transfer) (ps : Planets) (src dst : Planet) :
  let before := transfer.forward cos sin trade ps in
  let after := transfer.forward cos sin (applyTransfer trade t) ps in
  let dist := distanceTo cos sin src dst in
  from t <> to t ->
  lookup (from t) before = Some src ->
  lookup (to t) before = Some dst ->
  exists src' dst',
    lookup (from t) after = Some src' /\
    lookup (to t) after = Some dst' /\
    (forall r,
       get (available src') r = get (available src) r - get (res t) r / 365 /\
       get (available dst') r =
       get (available dst) r +
       get (res t) r / 365 * (1 - sim.transferFactor * dist)) /\
    (get (res t) water = 365 -> dist = 0 ->
     get (available dst') water = get (available dst) water + 1).
Proof.
  intros before after dist Hne Hsrc Hdst.
  destruct (forwardOne_moves cos sin t before src dst Hne Hsrc Hdst)
    as (src' & dst' & Hs & Hd & Hmove).
  exists src', dst'. unfold after. rewrite forward_applyTransfer.
  fold before. repeat split; try assumption; try apply Hmove.
  intros Hannual Hdist. destruct (Hmove water) as [_ Hw].
  rewrite Hw. fold dist. rewrite Hannual, Hdist. reflexivity.
Qed.

Lemma forward_moves_transfer_witness :
  exists src' dst',
    lookup "colony" (transfer.forward examples.Math_cos examples.Math_sin
                       [examples.aqueduct] examples.twins) = Some src' /\
    lookup "settlers" (transfer.forward examples.Math_cos examples.Math_sin
                         [examples.aqueduct] examples.twins) = Some dst' /\
    get (available src') water = 99 /\
    get (available dst') water = 100.
Proof.
  destruct (forward_moves_transfer examples.Math_cos examples.Math_sin []
              examples.aqueduct examples.twins examples.colony
              examples.settlers)
    as (src' & dst' & Hs & Hd & Hmove & Hone);
    [discriminate | reflexivity | reflexivity |].
  exists src', dst'. split; [exact Hs |]. split; [exact Hd |]. split.
  - destruct (Hmove water) as [Hw _]. rewrite Hw. reflexivity.
  - rewrite Hone; reflexivity.
Defined.

(** ** The arguments of [forward] *)

(** A non-positive refresh period is rejected, whatever the day count, and
    no state is produced. *)
Lemma forward_rejects_visPer (refStd : Resources) (cos sin : float -> float)
      (dps visPer : float) (sched : list nat) (g : Game) :
  (visPer <=? 0) = true ->
  exists e, forward refStd cos sin dps visPer sched g = inl e.
Proof.
  intros H. apply leb_zero_not_pos in H. unfold forward, checkArgs.
  destruct (negb (0 <? dps) && negb (dps <? JS.MAX_SAFE_INTEGER)).
  - now eexists.
  - rewrite H. now eexists.
Qed.

(** Every non-positive day count passes the check, given a positive
    refresh period. *)
Lemma checkArgs_nonpositive_days (dps visPer : float) :
  (dps <=? 0) = true -> (0 <? visPer) = true -> checkArgs dps visPer = None.
Proof.
  intros Hdps Hvis. unfold checkArgs.
  now rewrite (leb_zero_below_max dps Hdps), Hvis, andb_false_r.
Qed.

(** C6.  A non-positive day count is not rejected: the check of [forward]
    lets [-5] and [0] through (only a count that is neither positive nor
    below [MAX_SAFE_INTEGER], that is NaN, is refused), and [forward] then
    runs its loop, in which no day is ever simulated. *)
Theorem forward_accepts_nonpositive_days :
  checkArgs (-5) visPerDefault = None /\
  checkArgs 0 visPerDefault = None /\
  checkArgs nan visPerDefault = Some (OutOfBounds nan) /\
  (forall refStd cos sin sched g,
     forward refStd cos sin (-5) visPerDefault sched g =
     inr (periods refStd cos sin sched (-5) visPerDefault 0 g)) /\
  forward examples.refStd examples.Math_cos examples.Math_sin
          (-5) visPerDefault [3; 3; 3]%nat examples.liveGame =
  inr examples.liveGame.
Proof. repeat split. Qed.

(** ** The driver on a dead system *)

Section DeadSystem.
Variable refStd : Resources.
Variables cos sin : float -> float.

(** The loop over the planets leaves dead planets as they are and finds
    nobody alive. *)
Lemma stepPlanets_all_dead (ps : Planets) (someAlive : bool) (score : float) :
  all_dead ps = true ->
  exists score',
    stepPlanets refStd ps someAlive score = (ps, someAlive, score').
Proof.
  revert someAlive score.
  induction ps as [| [k q] rest IH]; intros someAlive score Hdead.
  - now exists score.
  - unfold all_dead in Hdead. cbn [forallb snd] in Hdead.
    apply andb_prop in Hdead. destruct Hdead as [Hq Hrest].
    cbn [stepPlanets]. rewrite (step_of_dead refStd q Hq), Hq.
    cbn [negb]. rewrite orb_false_r.
    destruct (IH someAlive (score + totalQol refStd q) Hrest) as [score' E].
    rewrite E. now exists score'.
Qed.

Lemma update_all_dead (g : Game) :
  all_dead (planets g) = true ->
  exists ps' score',
    update refStd cos sin g =
    (false, mkGame (gameOver g) (currentDay g + 1) ps' (trade g) score').
Proof.
  intros Hdead. unfold update.
  destruct (stepPlanets_all_dead (planets g) false (qolScore g) Hdead)
    as [score' E].
  rewrite E. now eexists _, _.
Qed.

(** The inner loop runs at most one update, which ends the game. *)
Lemma drain_all_dead (g : Game) (budget : nat) (queue : float) :
  all_dead (planets g) = true ->
  drain refStd cos sin budget queue g =
  match budget with
  | O => (false, queue, g)
  | S _ => if 1 <=? queue
           then (true, queue, endGame (snd (update refStd cos sin g)))
           else (false, queue, g)
  end.
Proof.
  intros Hdead. destruct budget as [| budget]; [reflexivity |].
  cbn [drain]. destruct (1 <=? queue); [| reflexivity].
  destruct (update_all_dead g Hdead) as (ps' & score' & E).
  now rewrite E.
Qed.

Lemma periods_all_dead (g : Game) (sched : list nat) (dps visPer queue : float) :
  all_dead (planets g) = true ->
  periods refStd cos sin sched dps visPer queue g = g \/
  periods refStd cos sin sched dps visPer queue g =
  endGame (snd (update refStd cos sin g)).
Proof.
  intros Hdead. revert queue.
  induction sched as [| budget sched IH]; intros queue; [now left |].
  cbn [periods]. rewrite (drain_all_dead g budget _ Hdead).
  destruct budget as [| budget]; [apply IH |].
  destruct (1 <=? _); [now right | apply IH].
Qed.
End DeadSystem.

(** C8, as the code has it.  On a system in which every planet has zero
    population, the first day's [update] reports liveness false and moves
    the day counter on by one; [forward] then ends the game at once, so a
    run ends with the state untouched (aborted before any update) or with
    the counter moved on by exactly one, however many days were asked for;
    it is the latter as soon as a first refresh period admits an update. *)
Theorem advance_all_dead (refStd : Resources) (cos sin : float -> float)
        (g : Game) :
  all_dead (planets g) = true ->
  fst (update refStd cos sin g) = false /\
  currentDay (snd (update refStd cos sin g)) = currentDay g + 1 /\
  (forall dps visPer sched g',
     forward refStd cos sin dps visPer sched g = inr g' ->
     g' = g \/
     (gameOver g' = true /\ currentDay g' = currentDay g + 1)) /\
  (forall dps visPer budget sched,
     checkArgs dps visPer = None ->
     (1 <=? 0 + dps * visPer / 1000) = true ->
     exists g',
       forward refStd cos sin dps visPer (S budget :: sched) g = inr g' /\
       gameOver g' = true /\ currentDay g' = currentDay g + 1).
Proof.
  intros Hdead.
  destruct (update_all_dead refStd cos sin g Hdead) as (ps' & score' & E).
  rewrite E. cbn [fst snd currentDay].
  split; [reflexivity |]. split; [reflexivity |]. split.
  - intros dps visPer sched g'. unfold forward.
    destruct (checkArgs dps visPer); [discriminate |].
    intros H. injection H as <-.
    destruct (periods_all_dead refStd cos sin g sched dps visPer 0 Hdead)
      as [-> | ->]; [now left | right].
    rewrite E. split; reflexivity.
  - intros dps visPer budget sched Hargs Hqueue. unfold forward.
    rewrite Hargs. eexists. split; [reflexivity |].
    cbn [periods]. change (0 <? 1) with true. cbn iota.
    rewrite (drain_all_dead refStd cos sin g (S budget) _ Hdead), Hqueue, E.
    split; reflexivity.
Qed.

Lemma advance_all_dead_witness :
  all_dead (planets examples.deadGame) = true /\
  fst (update examples.refStd examples.Math_cos examples.Math_sin
              examples.deadGame) = false /\
  currentDay (snd (update examples.refStd examples.Math_cos examples.Math_sin
                          examples.deadGame)) = 1.
Proof.
  split; [reflexivity |].
  destruct (advance_all_dead examples.refStd examples.Math_cos
              examples.Math_sin examples.deadGame) as (Hlive & Hday & _);
    [reflexivity |].
  split; [exact Hlive |]. rewrite Hday. reflexivity.
Defined.

(** C8, as the claim has it, fails: asked for 3 days on a dead system,
    [forward] runs one update, which reports liveness false, and stops
    with the day counter at 1, not 3. *)
Lemma advance_all_dead_counterexample :
  let g := examples.deadGame in
  let run := forward examples.refStd examples.Math_cos examples.Math_sin
                     3 1000 [3%nat] g in
  all_dead (planets g) = true /\
  fst (update examples.refStd examples.Math_cos examples.Math_sin g) = false /\
  exists g', run = inr g' /\
             currentDay g = 0 /\
             currentDay g' = 1 /\
             (currentDay g' =? currentDay g + 3) = false.
Proof.
  cbn zeta. split; [reflexivity |]. split; [reflexivity |].
  eexists. split; [reflexivity |]. repeat split.
Qed.

(** * Further properties *)

(** ** Signs of binary64 results *)

(** Rounding gives a result of the sign it was asked for, or NaN. *)
Lemma binary_round_aux_sign (s : bool) (m e : Z) (l : location) :
  match binary_round_aux prec emax s m e l with
  | S754_zero s' | S754_infinity s' | S754_finite s' _ _ => s' = s
  | S754_nan => True
  end.
Proof.
  unfold binary_round_aux.
  destruct (shr_fexp prec emax m e l) as [mrs e'].
  destruct (shr_fexp prec emax _ e' loc_Exact) as [mrs' e''].
  destruct (shr_m mrs'); [reflexivity | | exact I].
  destruct (Z.leb e'' (emax - prec)); reflexivity.
Qed.

Lemma binary_round_sign (s : bool) (m : positive) (e : Z) :
  match binary_round prec emax s m e with
  | S754_zero s' | S754_infinity s' | S754_finite s' _ _ => s' = s
  | S754_nan => True
  end.
Proof.
  unfold binary_round. destruct (shl_align m e _) as [mz ez].
  apply binary_round_aux_sign.
Qed.

Lemma ltb_zero_sign (v : float) :
  (v <? 0) = negb (sf_not_negative (Prim2SF v)).
Proof.
  rewrite (ltb_spec v 0), Prim2SF_zero. unfold SFltb.
  destruct (Prim2SF v) as [s | s | | s m e]; try reflexivity;
    destruct s; reflexivity.
Qed.

Lemma leb_one_not_positive (v : float) :
  sf_not_positive (Prim2SF v) = true -> (1 <=? v) = false.
Proof.
  rewrite (leb_spec 1 v).
  replace (Prim2SF 1) with (S754_finite false 4503599627370496 (-52))
    by reflexivity.
  unfold SFleb.
  destruct (Prim2SF v) as [s | s | | s m e]; try destruct s;
    intros H; (reflexivity || discriminate H).
Qed.

Lemma leb_zero_not_positive (v : float) :
  (v <=? 0) = true -> sf_not_positive (Prim2SF v) = true.
Proof.
  rewrite (leb_spec v 0), Prim2SF_zero. unfold SFleb.
  destruct (Prim2SF v) as [s | s | | s m e]; try destruct s;
    intros H; (reflexivity || discriminate H).
Qed.

Lemma add_not_positive (a b : float) :
  sf_not_positive (Prim2SF a) = true ->
  sf_not_positive (Prim2SF b) = true ->
  sf_not_positive (Prim2SF (a + b)) = true.
Proof.
  rewrite add_spec. unfold SF64add.
  destruct (Prim2SF a) as [sa | sa | | sa ma ea],
           (Prim2SF b) as [sb | sb | | sb mb eb];
    cbn [sf_not_positive]; intros Ha Hb; subst; try reflexivity.
  - destruct sa, sb; reflexivity.
  - cbn [SFadd cond_Zopp]. 
    set (X := fst (shl_align ma ea (Z.min ea eb))).
    set (Y := fst (shl_align mb eb (Z.min ea eb))).
    change (Z.add (Z.opp (Zpos X)) (Z.opp (Zpos Y))) with (Zneg (X + Y)).
    cbn [binary_normalize].
    pose proof (binary_round_sign true (X + Y) (Z.min ea eb)) as H.
    destruct (binary_round prec emax true (X + Y) (Z.min ea eb));
      cbn [sf_not_positive]; auto.
Qed.

Lemma ltb_zero_positive (v : float) :
  (0 <? v) = sf_positive (Prim2SF v).
Proof.
  rewrite (ltb_spec 0 v), Prim2SF_zero. unfold SFltb.
  destruct (Prim2SF v) as [s | s | | s m e]; try reflexivity;
    destruct s; reflexivity.
Qed.

Lemma mul_not_positive (a b : float) :
  sf_not_positive (Prim2SF a) = true ->
  sf_positive (Prim2SF b) = true ->
  sf_not_positive (Prim2SF (a * b)) = true.
Proof.
  rewrite mul_spec. unfold SF64mul.
  destruct (Prim2SF a) as [sa | sa | | sa ma ea],
           (Prim2SF b) as [sb | sb | | sb mb eb];
    cbn [sf_not_positive sf_positive]; intros Ha Hb;
    try discriminate; subst; try reflexivity;
    try (destruct sb; [discriminate | reflexivity]).
  destruct sb; [discriminate |]. cbn [SFmul xorb].
  pose proof (binary_round_aux_sign true (Zpos (ma * mb)) (ea + eb) loc_Exact) as H.
  destruct (binary_round_aux prec emax true _ _ _);
    cbn [sf_not_positive]; auto.
Qed.

Lemma div_not_positive (a b : float) :
  sf_not_positive (Prim2SF a) = true ->
  sf_positive (Prim2SF b) = true ->
  sf_not_positive (Prim2SF (a / b)) = true.
Proof.
  rewrite div_spec. unfold SF64div.
  destruct (Prim2SF a) as [sa | sa | | sa ma ea],
           (Prim2SF b) as [sb | sb | | sb mb eb];
    cbn [sf_not_positive sf_positive]; intros Ha Hb;
    try discriminate; subst; try reflexivity;
    try (destruct sb; [discriminate | reflexivity]).
  destruct sb; [discriminate |]. cbn [SFdiv xorb].
  destruct (SFdiv_core_binary prec emax (Zpos ma) ea (Zpos mb) eb)
    as [[mz ez] lz].
  pose proof (binary_round_aux_sign true mz ez lz) as H.
  destruct (binary_round_aux prec emax true mz ez lz);
    cbn [sf_not_positive]; auto.
Qed.

Section Idle.
Variable refStd : Resources.
Variables cos sin : float -> float.

(** With a queue that is not positive the inner loop runs no update. *)
Lemma drain_idle (budget : nat) (queue : float) (g : Game) :
  sf_not_positive (Prim2SF queue) = true ->
  drain refStd cos sin budget queue g = (false, queue, g).
Proof.
  intros Hq. destruct budget as [| budget]; [reflexivity |].
  cbn [drain]. now rewrite (leb_one_not_positive queue Hq).
Qed.

Lemma periods_idle (sched : list nat) (dps visPer queue : float) (g : Game) :
  sf_not_positive (Prim2SF (dps * visPer / 1000)) = true ->
  sf_not_positive (Prim2SF queue) = true ->
  periods refStd cos sin sched dps visPer queue g = g.
Proof.
  intros Hd. revert queue.
  induction sched as [| budget sched IH]; intros queue Hq; [reflexivity |].
  cbn [periods].
  assert (Hq' : sf_not_positive
                  (Prim2SF (if queue <? 1 then queue + dps * visPer / 1000
                            else queue)) = true).
  { destruct (queue <? 1); [now apply add_not_positive | exact Hq]. }
  rewrite (drain_idle budget _ g Hq'). now apply IH.
Qed.
End Idle.

(** X1.  A day count that is zero or negative is not refused, and with it
    [forward] never simulates a day: whatever the refresh period (positive,
    as the check demands), however long the player lets it run, the game
    comes back exactly as it was. *)
Theorem forward_nonpositive_days_idle (refStd : Resources)
        (cos sin : float -> float) (dps visPer : float) (sched : list nat)
        (g : Game) :
  (dps <=? 0) = true ->
  (0 <? visPer) = true ->
  forward refStd cos sin dps visPer sched g = inr g.
Proof.
  intros Hdps Hvis. unfold forward.
  rewrite (checkArgs_nonpositive_days dps visPer Hdps Hvis).
  f_equal. apply periods_idle; [| reflexivity].
  apply div_not_positive; [| reflexivity].
  apply mul_not_positive; [now apply leb_zero_not_positive |].
  now rewrite <- ltb_zero_positive.
Qed.

Lemma forward_nonpositive_days_idle_witness :
  forward examples.refStd examples.Math_cos examples.Math_sin
          (-5) visPerDefault [3; 3; 3; 3]%nat examples.liveGame =
  inr examples.liveGame.
Proof.
  apply (forward_nonpositive_days_idle examples.refStd examples.Math_cos
           examples.Math_sin (-5) visPerDefault); reflexivity.
Defined.

Lemma is_nan_spec (v : float) :
  is_nan v = match Prim2SF v with S754_nan => true | _ => false end.
Proof.
  unfold is_nan. rewrite (eqb_spec v v). unfold SFeqb.
  destruct (Prim2SF v) as [s | s | | s m e]; try reflexivity.
  - destruct s; reflexivity.
  - cbn [SFcompare]. rewrite Z.compare_refl, Pos.compare_cont_refl.
    destruct s; reflexivity.
Qed.

(** X2.  The check of [forward] refuses a day count only when it is NaN:
    every other count passes, be it zero, negative or infinite.  The
    refresh period is refused exactly when it is not above zero. *)
Theorem checkArgs_cases (dps visPer : float) :
  checkArgs dps visPer =
  if is_nan dps then Some (OutOfBounds dps)
  else if 0 <? visPer then None
  else Some (VisualPeriod visPer).
Proof.
  unfold checkArgs. rewrite is_nan_spec, (ltb_spec 0 dps),
    (ltb_spec dps JS.MAX_SAFE_INTEGER), Prim2SF_zero.
  replace (Prim2SF JS.MAX_SAFE_INTEGER)
    with (S754_finite false 9007199254740991 0) by reflexivity.
  unfold SFltb.
  destruct (Prim2SF dps) as [s | s | | s m e]; try destruct s;
    try reflexivity; destruct (0 <? visPer); reflexivity.
Qed.

(** X3.  [invert] is its own inverse. *)
Theorem invert_involutive (res : Resources) : invert (invert res) = res.
Proof.
  assert (H : forall v : float, - - v = v).
  { intros v. apply Prim2SF_inj. rewrite !opp_spec.
    destruct (Prim2SF v) as [s | s | | s m e]; cbn [SFopp];
      now rewrite ?negb_involutive. }
  destruct res as [w f e p]. unfold invert. cbn. now rewrite !H.
Qed.

(** ** The liveness flag of [update] *)

Section Liveness.
Variable refStd : Resources.
Variables cos sin : float -> float.

Lemma stepPlanets_result (ps : Planets) (someAlive : bool) (score : float) :
  stepPlanets refStd ps someAlive score =
  (map (fun kp => (fst kp, step refStd (snd kp))) ps,
   someAlive || existsb (survives refStd) ps,
   fold_left (fun s kp => s + totalQol refStd (step refStd (snd kp))) ps score).
Proof.
  revert someAlive score.
  induction ps as [| [k q] rest IH]; intros someAlive score.
  - cbn. now rewrite orb_false_r.
  - cbn [stepPlanets]. rewrite IH. cbn [map existsb fold_left fst snd].
    unfold survives at 2. cbn [snd]. now rewrite orb_assoc.
Qed.
End Liveness.

(** X4.  One day of the whole system: [update] steps every planet once, in
    the order of the store and under the same names, and hands the stepped
    planets to the ledger; it reports true exactly when some planet is
    alive after its own step (the day's transfers, which run afterwards,
    do not enter the report); and it adds to the score the total quality
    of life of each stepped planet, in that order. *)
Theorem update_summary (refStd : Resources) (cos sin : float -> float)
        (g : Game) :
  let stepped := map (fun kp => (fst kp, step refStd (snd kp))) (planets g) in
  fst (update refStd cos sin g) = existsb (survives refStd) (planets g) /\
  planets (snd (update refStd cos sin g)) =
    transfer.forward cos sin (trade g) stepped /\
  qolScore (snd (update refStd cos sin g)) =
    fold_left (fun s kp => s + totalQol refStd (snd kp)) stepped (qolScore g).
Proof.
  cbn zeta. unfold update. rewrite stepPlanets_result.
  cbn [fst snd planets qolScore orb]. repeat split.
  generalize (qolScore g).
  induction (planets g) as [| kp rest IH]; intros s; [reflexivity |].
  cbn [map fold_left snd]. apply IH.
Qed.

(** ** The last inhabitant *)

Section LastInhabitant.
Variable refStd : Resources.
Let refQol : float := qolPerCapita refStd (refPlanet refStd).
Hypothesis refQol_nonzero : (refQol =? 0) = false.
Hypothesis refQol_number : is_nan refQol = false.

Lemma zero_over_refQol : exists s, Prim2SF (0 / refQol) = S754_zero s.
Proof.
  revert refQol_nonzero refQol_number.
  rewrite is_nan_spec, (eqb_spec refQol 0), div_spec, Prim2SF_zero.
  unfold SFeqb, SF64div.
  destruct (Prim2SF refQol) as [s | s | | s m e]; cbn [SFcompare SFdiv];
    intros H1 H2; try discriminate; eauto.
Qed.

(** With nobody left the growth factor multiplies zero, whatever the
    birth rate. *)
Lemma growth_of_nobody (a : Planet) :
  res_population (available a) = 0 ->
  res_population (available a) * (1 + birthRate refStd a) = 0.
Proof.
  intros H0. rewrite H0. unfold birthRate.
  destruct (quench refStd a <? 0); [reflexivity |].
  destruct (fullness refStd a <? 0); [reflexivity |].
  assert (Hp : productivity refStd a = 0 / refQol).
  { unfold productivity. unfold qolPerCapita at 1. now rewrite H0. }
  rewrite Hp. destruct zero_over_refQol as [s Hz].
  set (z := 0 / refQol) in *.
  assert (Hsign : JS.Math_sign z = z).
  { unfold JS.Math_sign. rewrite ltb_zero_positive, ltb_zero_sign, Hz.
    reflexivity. }
  rewrite Hsign.
  assert (Hr : exists s', Prim2SF (z * (z * z) * sim.birthRate) = S754_zero s').
  { assert (Hb : exists m e, Prim2SF sim.birthRate = S754_finite false m e)
      by (do 2 eexists; reflexivity).
    destruct Hb as (mb & eb & Hb).
    rewrite !mul_spec, Hz, Hb. unfold SF64mul. cbn [SFmul]. eauto. }
  destruct Hr as [s' Hr].
  assert (H1 : 1 + z * (z * z) * sim.birthRate = 1).
  { apply Prim2SF_inj. rewrite add_spec, Hr. reflexivity. }
  rewrite H1. reflexivity.
Qed.

Lemma birth_of_one (q : Planet) :
  res_population (available q) = 1 ->
  res_population (available (snd (birth refStd q))) = 0.
Proof.
  intros H1. unfold birth. cbn zeta. cbn [snd].
  assert (Ha : res_population (available (attrited q)) = 0).
  { unfold attrited, setPopulation. cbn. now rewrite H1. }
  unfold setPopulation at 1. cbn [available with_available set res_population].
  unfold setPopulation at 1. cbn [available with_available set res_population].
  now rewrite (growth_of_nobody _ Ha).
Qed.
End LastInhabitant.

(** On a living planet the population after [step] is the one [birth]
    leaves, and [birth] starts from the population [step] started with. *)
Lemma step_population (refStd : Resources) (p : Planet) :
  dead p = false ->
  exists q,
    res_population (available q) = res_population (available p) /\
    res_population (available (step refStd p)) =
    res_population (available (snd (birth refStd q))).
Proof.
  intros Halive. unfold step, dead in *. rewrite Halive.
  pose proof (mu_frame refStd p water) as F1.
  destruct (mu refStd p water) as [r1 p1]. cbn [snd] in F1.
  set (q1 := with_rate p1 (set (rate p1) water r1)).
  pose proof (mu_frame refStd q1 food) as F2.
  destruct (mu refStd q1 food) as [r2 p2]. cbn [snd] in F2.
  set (q2 := with_rate p2 (set (rate p2) food r2)).
  pose proof (mu_frame refStd q2 energy) as F3.
  destruct (mu refStd q2 energy) as [r3 p3]. cbn [snd] in F3.
  set (q3 := with_rate p3 (set (rate p3) energy r3)).
  exists q3. split.
  - destruct F1 as (_ & _ & _ & _ & R1), F2 as (_ & _ & _ & _ & R2),
             F3 as (_ & _ & _ & _ & R3).
    destruct (R1 population) as [_ H1]; [discriminate |].
    destruct (R2 population) as [_ H2]; [discriminate |].
    destruct (R3 population) as [_ H3]; [discriminate |].
    unfold get in H1, H2, H3. unfold q3. cbn [available with_rate].
    rewrite H3. unfold q2. cbn [available with_rate]. rewrite H2.
    unfold q1. cbn [available with_rate]. exact H1.
  - destruct (birth refStd q3) as [r4 p4]. reflexivity.
Qed.

(** A planet other than the reference, with a population of exactly 1,
    is dead after [step], whatever its stock.  The reference planet's
    quality of life per person is a number other than zero. *)
Lemma step_of_one (refStd : Resources) (p : Planet) :
  res_population (available p) = 1 ->
  (qolPerCapita refStd (refPlanet refStd) =? 0) = false ->
  is_nan (qolPerCapita refStd (refPlanet refStd)) = false ->
  res_population (available (step refStd p)) = 0 /\
  dead (step refStd p) = true.
Proof.
  intros H1 Hq Hn.
  assert (Halive : dead p = false) by (unfold dead; now rewrite H1).
  destruct (step_population refStd p Halive) as (q & Hq1 & Hstep).
  rewrite H1 in Hq1.
  assert (H0 : res_population (available (step refStd p)) = 0).
  { rewrite Hstep. now apply birth_of_one. }
  split; [exact H0 |]. unfold dead. now rewrite H0.
Qed.


(** ** A dead system at rest *)

Lemma add_zero_same (a b z : float) (s : bool) :
  Prim2SF z = S754_zero s -> same_number a b -> same_number (a + z) b.
Proof.
  intros Hz [-> | (sa & sb & Ha & Hb)].
  - destruct (Prim2SF b) as [sb | sb | | sb mb eb] eqn:Hb.
    + right. exists (if sb then s else false), sb. split; [| exact Hb].
      rewrite add_spec, Hb, Hz. now destruct sb, s.
    + left. apply Prim2SF_inj. now rewrite add_spec, Hb, Hz.
    + left. apply Prim2SF_inj. now rewrite add_spec, Hb, Hz.
    + left. apply Prim2SF_inj. now rewrite add_spec, Hb, Hz.
  - right. exists (if sa then s else false), sb. split; [| exact Hb].
    rewrite add_spec, Ha, Hz. now destruct sa, s.
Qed.

Lemma same_number_eqb (a b : float) :
  same_number a b -> is_nan b = false -> (a =? b) = true.
Proof.
  intros [-> | (sa & sb & Ha & Hb)] Hn.
  - unfold is_nan in Hn. now apply negb_false_iff in Hn.
  - now rewrite eqb_spec, Ha, Hb.
Qed.

(** A dead planet's total quality of life is zero. *)
Lemma totalQol_dead (refStd : Resources) (p : Planet) :
  dead p = true -> exists s, Prim2SF (totalQol refStd p) = S754_zero s.
Proof.
  unfold dead, totalQol, qolPerCapita. intros Hdead. rewrite Hdead.
  destruct (eqb_zero_inv _ Hdead) as [s Hs].
  rewrite mul_spec, Hs, Prim2SF_zero. cbn. eauto.
Qed.

Lemma stepPlanets_dead_score (refStd : Resources) (ps : Planets)
      (someAlive : bool) (score score0 : float) :
  all_dead ps = true ->
  same_number score score0 ->
  exists score',
    stepPlanets refStd ps someAlive score = (ps, someAlive, score') /\
    same_number score' score0.
Proof.
  revert someAlive score.
  induction ps as [| [k q] rest IH]; intros someAlive score Hdead Hsame.
  - now exists score.
  - unfold all_dead in Hdead. cbn [forallb snd] in Hdead.
    apply andb_prop in Hdead. destruct Hdead as [Hq Hrest].
    cbn [stepPlanets]. rewrite (step_of_dead refStd q Hq), Hq.
    cbn [negb]. rewrite orb_false_r.
    destruct (totalQol_dead refStd q Hq) as [s Hs].
    destruct (IH someAlive (score + totalQol refStd q) Hrest
                 (add_zero_same _ _ _ _ Hs Hsame)) as (score' & E & Hsame').
    rewrite E. now exists score'.
Qed.

(** X6.  Game over is a resting state: on a game whose planets are all dead
    and whose ledger is empty, [update] reports nobody alive and changes
    nothing but the day counter; the planets, the ledger and [gameOver] are
    the same and the score, when it is a number, has the same value. *)
Theorem update_dead_at_rest (refStd : Resources) (cos sin : float -> float)
        (g : Game) :
  all_dead (planets g) = true ->
  trade g = [] ->
  is_nan (qolScore g) = false ->
  let g' := snd (update refStd cos sin g) in
  fst (update refStd cos sin g) = false /\
  planets g' = planets g /\
  trade g' = trade g /\
  gameOver g' = gameOver g /\
  (qolScore g' =? qolScore g) = true /\
  currentDay g' = currentDay g + 1.
Proof.
  intros Hdead Htrade Hn. cbn zeta. unfold update.
  destruct (stepPlanets_dead_score refStd (planets g) false (qolScore g)
              (qolScore g) Hdead (or_introl eq_refl)) as (score' & E & Hsame).
  rewrite E, Htrade. cbn. repeat split.
  now apply same_number_eqb.
Qed.

Lemma update_dead_at_rest_witness :
  let g' := snd (update examples.refStd examples.Math_cos examples.Math_sin
                        examples.deadGame) in
  planets g' = planets examples.deadGame /\
  (qolScore g' =? qolScore examples.deadGame) = true.
Proof.
  destruct (update_dead_at_rest examples.refStd examples.Math_cos
              examples.Math_sin examples.deadGame)
    as (_ & Hps & _ & _ & Hscore & _); try reflexivity.
  split; [exact Hps | exact Hscore].
Defined.

(** ** Distances *)

Lemma binary_round_aux_opp (s : bool) (m e : Z) (l : location) :
  binary_round_aux prec emax (negb s) m e l =
  SFopp (binary_round_aux prec emax s m e l).
Proof.
  unfold binary_round_aux.
  destruct (shr_fexp prec emax m e l) as [mrs e'].
  destruct (shr_fexp prec emax _ e' loc_Exact) as [mrs' e''].
  destruct (shr_m mrs'); try reflexivity.
  destruct (Z.leb e'' (emax - prec)); reflexivity.
Qed.

Lemma binary_normalize_opp (m e : Z) :
  m <> 0%Z ->
  binary_normalize prec emax (- m) e false =
  SFopp (binary_normalize prec emax m e false).
Proof.
  intros Hm. destruct m as [| p | p]; [now destruct Hm | |];
    cbn [Z.opp binary_normalize]; unfold binary_round;
    destruct (shl_align p e _) as [mz ez].
  - apply (binary_round_aux_opp false).
  - rewrite (binary_round_aux_opp false). 
    now destruct (binary_round_aux prec emax false _ _ _); cbn;
      rewrite ?negb_involutive.
Qed.

(** Swapping the operands of a subtraction negates the difference; a
    difference of zero stays [+0]. *)
Lemma SFsub_swap (a b : spec_float) :
  SF64sub b a = SFopp (SF64sub a b) \/
  (SF64sub a b = S754_zero false /\ SF64sub b a = S754_zero false).
Proof.
  unfold SF64sub.
  destruct a as [sa | sa | | sa ma ea], b as [sb | sb | | sb mb eb];
    try (left; reflexivity);
    try (destruct sa, sb; (left; reflexivity) || (right; split; reflexivity)).
  cbn [SFsub]. rewrite (Z.min_comm eb ea).
  set (X := cond_Zopp sa (Zpos (fst (shl_align ma ea (Z.min ea eb))))).
  set (Y := cond_Zopp sb (Zpos (fst (shl_align mb eb (Z.min ea eb))))).
  destruct (Z.eq_dec (X - Y) 0) as [E | E].
  - right. replace (Y - X)%Z with 0%Z by lia. rewrite E. split; reflexivity.
  - left. replace (Y - X)%Z with (- (X - Y))%Z by lia.
    now apply binary_normalize_opp.
Qed.

Lemma SFmul_opp_opp (r : spec_float) :
  SF64mul (SFopp r) (SFopp r) = SF64mul r r.
Proof.
  unfold SF64mul. destruct r as [s | s | | s m e]; cbn [SFopp SFmul];
    try reflexivity; now destruct s.
Qed.

(** The square of a difference does not depend on the order of the
    operands. *)
Lemma square_of_difference (a b : float) :
  (a - b) * (a - b) = (b - a) * (b - a).
Proof.
  apply Prim2SF_inj. rewrite !mul_spec, !sub_spec.
  destruct (SFsub_swap (Prim2SF a) (Prim2SF b)) as [-> | [-> ->]];
    [now rewrite SFmul_opp_opp | reflexivity].
Qed.

(** X7.  The distance between two planets is the same in both directions,
    whatever the host's cosine and sine return. *)
Theorem distanceTo_symmetric (cos sin : float -> float) (p q : Planet) :
  distanceTo cos sin p q = distanceTo cos sin q p.
Proof.
  unfold distanceTo. cbn zeta.
  now rewrite (square_of_difference (x cos q) (x cos p)),
              (square_of_difference (y sin q) (y sin p)).
Qed.

Lemma sqrt_not_negative (v : float) : (sqrt v <? 0) = false.
Proof.
  rewrite ltb_zero_sign, sqrt_spec. unfold SF64sqrt.
  destruct (Prim2SF v) as [s | s | | s m e]; try reflexivity;
    destruct s; try reflexivity.
  cbn [SFsqrt].
  destruct (SFsqrt_core_binary prec emax (Zpos m) e) as [[mz ez] lz].
  pose proof (binary_round_aux_sign false mz ez lz) as H.
  destruct (binary_round_aux prec emax false mz ez lz); cbn; try reflexivity;
    now rewrite H.
Qed.

(** X8.  A distance is never negative: it is a number that is not below
    zero, or NaN. *)
Theorem distanceTo_not_negative (cos sin : float -> float) (p q : Planet) :
  (distanceTo cos sin p q <? 0) = false.
Proof. unfold distanceTo. cbn zeta. apply sqrt_not_negative. Qed.

(** ** Order on binary64 values *)

Lemma SFcompare_antisym (a b : spec_float) :
  SFcompare b a = option_map CompOpp (SFcompare a b).
Proof.
  destruct a as [sa | sa | | sa ma ea], b as [sb | sb | | sb mb eb];
    try reflexivity; try (destruct sa; reflexivity);
    try (destruct sb; reflexivity); try (destruct sa, sb; reflexivity).
  cbn [SFcompare option_map]. f_equal.
  destruct sa, sb; try reflexivity;
    rewrite (Z.compare_antisym ea eb);
    destruct (ea ?= eb)%Z; cbn [CompOpp]; try reflexivity;
    now rewrite (ZC4 mb ma).
Qed.

Lemma ltb_asym (a b : float) : (a <? b) = true -> (b <? a) = false.
Proof.
  rewrite (ltb_spec a b), (ltb_spec b a). unfold SFltb.
  rewrite (SFcompare_antisym (Prim2SF a) (Prim2SF b)).
  destruct (SFcompare (Prim2SF a) (Prim2SF b)) as [[| |] |];
    cbn; congruence.
Qed.

Lemma ltb_irrefl (a : float) : (a <? a) = false.
Proof.
  destruct (a <? a) eqn:E; [| reflexivity].
  now rewrite (ltb_asym a a E) in E.
Qed.

Lemma ltb_nan_r (a : float) : (a <? nan) = false.
Proof.
  rewrite (ltb_spec a nan). change (Prim2SF nan) with S754_nan.
  unfold SFltb. now destruct (Prim2SF a).
Qed.

(** [Math.min] returns nothing above its first argument. *)
Lemma Math_min_below_left (a b : float) : (a <? JS.Math_min a b) = false.
Proof.
  unfold JS.Math_min.
  destruct (is_nan a || is_nan b); [apply ltb_nan_r |].
  destruct (a <? b) eqn:Hab; [apply ltb_irrefl |].
  destruct (b <? a) eqn:Hba; [exact Hab |].
  destruct (get_sign a); [apply ltb_irrefl | exact Hab].
Qed.

(** *** Mantissas of valid numbers *)

Lemma digits2_pos_size (m : positive) : digits2_pos m = Pos.size m.
Proof. induction m as [m IH | m IH |]; cbn; now rewrite ?IH. Qed.

Lemma digits2_pos_bounds (m : positive) :
  (2 ^ (Zpos (digits2_pos m) - 1) <= Zpos m < 2 ^ Zpos (digits2_pos m))%Z.
Proof.
  rewrite digits2_pos_size.
  pose proof (Pos.size_gt m) as Hgt. pose proof (Pos.size_le m) as Hle.
  apply Pos2Z.pos_lt_pos in Hgt. apply Pos2Z.pos_le_pos in Hle.
  rewrite Pos2Z.inj_pow in Hgt, Hle.
  replace (Zpos (Pos.size m)) with (Z.succ (Zpos (Pos.size m) - 1)) in Hle
    by lia.
  rewrite Z.pow_succ_r in Hle by lia.
  change (Zpos m~0) with (2 * Zpos m)%Z in Hle. lia.
Qed.

(** The value of an aligned mantissa. *)
Lemma shl_align_value (m : positive) (e e' : Z) :
  (e' <= e)%Z ->
  Zpos (fst (shl_align m e e')) = (Zpos m * 2 ^ (e - e'))%Z.
Proof.
  intros Hle. unfold shl_align.
  destruct (e' - e)%Z as [| d | d] eqn:E; cbn [fst].
  - replace (e - e')%Z with 0%Z by lia. lia.
  - lia.
  - replace (e - e')%Z with (Zpos d) by lia.
    change (Pos.iter xO m d) with (shift_pos d m).
    rewrite shift_pos_correct. change (2 ^ Zpos d)%Z with (Z.pow_pos 2 d). lia.
Qed.

(** A valid mantissa has at most 53 bits, and exactly 53 above the least
    exponent. *)
Lemma valid_mantissa (s : bool) (m : positive) (e : Z) :
  valid_binary (S754_finite s m e) = true ->
  (Zpos (digits2_pos m) <= 53)%Z /\ (-1074 <= e)%Z /\
  ((-1074 < e)%Z -> Zpos (digits2_pos m) = 53%Z).
Proof.
  cbn [SpecFloat.valid_binary]. unfold bounded, canonical_mantissa, fexp.
  intros H. apply andb_prop in H. destruct H as [H _].
  apply Z.eqb_eq in H. revert H.
  change (SpecFloat.emin prec emax) with (-1074)%Z. change prec with 53%Z.
  lia.
Qed.

(** Of two valid positive numbers the one that compares below has the
    smaller aligned mantissa. *)
Lemma aligned_mantissas (ma mb : positive) (ea eb : Z) :
  valid_binary (S754_finite false ma ea) = true ->
  valid_binary (S754_finite false mb eb) = true ->
  SFleb (S754_finite false mb eb) (S754_finite false ma ea) = true ->
  (Zpos (fst (shl_align mb eb (Z.min ea eb))) <=
   Zpos (fst (shl_align ma ea (Z.min ea eb))))%Z.
Proof.
  intros Va Vb Hle.
  destruct (valid_mantissa _ _ _ Va) as (Hda & Hea & Hna).
  destruct (valid_mantissa _ _ _ Vb) as (Hdb & Heb & Hnb).
  pose proof (digits2_pos_bounds ma) as Ba.
  pose proof (digits2_pos_bounds mb) as Bb.
  unfold SFleb in Hle. cbn [SFcompare] in Hle.
  destruct (eb ?= ea)%Z eqn:E.
  - apply Z.compare_eq in E. subst eb. rewrite Z.min_id.
    rewrite !shl_align_value by lia. rewrite Z.sub_diag, Z.pow_0_r.
    change (Pos.compare_cont Eq mb ma) with (Pos.compare mb ma) in Hle.
    destruct (Pos.compare mb ma) eqn:C; try discriminate.
    + apply Pos.compare_eq in C. subst. lia.
    + rewrite Pos.compare_lt_iff in C. lia.
  - rewrite Z.compare_lt_iff in E. rewrite Z.min_r by lia.
    rewrite !shl_align_value by lia. rewrite Z.sub_diag, Z.pow_0_r.
    rewrite (Hna ltac:(lia)) in Ba.
    assert (H53 : (Zpos mb < 2 ^ 53)%Z).
    { apply Z.lt_le_trans with (1 := proj2 Bb).
      apply Z.pow_le_mono_r; lia. }
    assert (Hp : (2 ^ 1 <= 2 ^ (ea - eb))%Z)
      by (apply Z.pow_le_mono_r; lia).
    change (2 ^ (53 - 1))%Z with 4503599627370496%Z in Ba.
    change (2 ^ 53)%Z with 9007199254740992%Z in H53.
    change (2 ^ 1)%Z with 2%Z in Hp. nia.
  - discriminate.
Qed.

(** Taking a smaller number from one that is not negative leaves nothing
    negative. *)
Lemma SFsub_not_negative (a b : spec_float) :
  valid_binary a = true -> valid_binary b = true ->
  SFleb (S754_zero false) a = true ->
  SFleb b a = true ->
  sf_not_negative (SF64sub a b) = true.
Proof.
  intros Va Vb Ha Hba. unfold SF64sub.
  destruct a as [sa | sa | | sa ma ea]; try discriminate;
    try (destruct sa; [discriminate |]);
    destruct b as [sb | sb | | sb mb eb]; try discriminate;
    try (destruct sb; try discriminate; reflexivity);
    try (destruct sa, sb; reflexivity).
  destruct sb.
  - (* a negative number is taken away *)
    cbn [SFsub cond_Zopp].
    set (X := fst (shl_align ma ea (Z.min ea eb))).
    set (Y := fst (shl_align mb eb (Z.min ea eb))).
    change (Z.sub (Zpos X) (Z.opp (Zpos Y))) with (Zpos (X + Y)).
    cbn [binary_normalize].
    pose proof (binary_round_sign false (X + Y) (Z.min ea eb)) as H.
    destruct (binary_round prec emax false (X + Y) (Z.min ea eb));
      cbn [sf_not_negative]; try reflexivity; now rewrite H.
  - pose proof (aligned_mantissas ma mb ea eb Va Vb Hba) as Hle.
    cbn [SFsub cond_Zopp].
    set (X := Zpos (fst (shl_align ma ea (Z.min ea eb)))) in *.
    set (Y := Zpos (fst (shl_align mb eb (Z.min ea eb)))) in *.
    destruct (X - Y)%Z as [| d | d] eqn:E; [reflexivity | | lia].
    cbn [binary_normalize].
    pose proof (binary_round_sign false d (Z.min ea eb)) as H.
    destruct (binary_round prec emax false d (Z.min ea eb));
      cbn [sf_not_negative]; try reflexivity; now rewrite H.
Qed.

Lemma sub_not_negative (a b : float) :
  (0 <=? a) = true -> (b <=? a) = true -> (a - b <? 0) = false.
Proof.
  rewrite (leb_spec 0 a), (leb_spec b a), Prim2SF_zero. intros Ha Hba.
  rewrite ltb_zero_sign, sub_spec.
  now rewrite (SFsub_not_negative _ _ (Prim2SF_valid a) (Prim2SF_valid b)).
Qed.

Lemma leb_refl (a : float) : is_nan a = false -> (a <=? a) = true.
Proof.
  rewrite is_nan_spec, (leb_spec a a). unfold SFleb.
  destruct (Prim2SF a) as [s | s | | s m e]; try discriminate; intros _.
  - reflexivity.
  - now destruct s.
  - cbn [SFcompare]. rewrite Z.compare_refl, Pos.compare_cont_refl.
    now destruct s.
Qed.

(** Two numbers, neither below the other, compare as equal. *)
Lemma leb_of_tie (a b : float) :
  is_nan a = false -> is_nan b = false ->
  (a <? b) = false -> (b <? a) = false -> (b <=? a) = true.
Proof.
  rewrite !is_nan_spec, (ltb_spec a b), (ltb_spec b a), (leb_spec b a).
  unfold SFltb, SFleb.
  rewrite (SFcompare_antisym (Prim2SF a) (Prim2SF b)).
  destruct (Prim2SF a) as [sa | sa | | sa ma ea] eqn:Ea; try discriminate;
    destruct (Prim2SF b) as [sb | sb | | sb mb eb] eqn:Eb; try discriminate;
    intros _ _;
    destruct (SFcompare _ _) as [[| |] |] eqn:C; cbn; try congruence;
    try (destruct sa, sb; discriminate C); try (destruct sa; discriminate C);
    try (destruct sb; discriminate C); discriminate C.
Qed.

Lemma ltb_leb (a b : float) : (b <? a) = true -> (b <=? a) = true.
Proof.
  rewrite (ltb_spec b a), (leb_spec b a). unfold SFltb, SFleb.
  now destruct (SFcompare _ _) as [[| |] |].
Qed.

(** [Math.min] is NaN or at most its first argument. *)
Lemma Math_min_cases (a b : float) :
  JS.Math_min a b = nan \/ (JS.Math_min a b <=? a) = true.
Proof.
  unfold JS.Math_min.
  destruct (is_nan a) eqn:Na; [now left |].
  destruct (is_nan b) eqn:Nb; [now left |]. cbn [orb].
  destruct (a <? b) eqn:Hab; [right; now apply leb_refl |].
  destruct (b <? a) eqn:Hba; [right; now apply ltb_leb |].
  destruct (get_sign a); right; [now apply leb_refl | now apply leb_of_tie].
Qed.

Lemma sub_min_not_negative (a b : float) :
  (0 <=? a) = true -> (a - JS.Math_min a b <? 0) = false.
Proof.
  intros Ha. destruct (Math_min_cases a b) as [-> | Hle].
  - rewrite ltb_zero_sign, sub_spec. change (Prim2SF nan) with S754_nan.
    unfold SF64sub. now destruct (Prim2SF a).
  - now apply sub_not_negative.
Qed.

Lemma leb_zero_not_below (v : float) : (0 <=? v) = true -> (v <? 0) = false.
Proof.
  rewrite (leb_spec 0 v), ltb_zero_sign, Prim2SF_zero. unfold SFleb.
  destruct (Prim2SF v) as [s | s | | s m e]; try reflexivity;
    destruct s; try reflexivity; discriminate.
Qed.

(** ** Mining within the reserve *)

(** X9.  [mu] never mines more than the reserve holds: the amount mined is
    at most the raw reserve, or NaN. *)
Theorem mining_within_reserve (refStd : Resources) (p : Planet)
        (r : ResName) :
  (get (raw p) r <? mining refStd p r) = false.
Proof. unfold mining. cbn zeta. apply Math_min_below_left. Qed.

Lemma mu_raw_not_negative (refStd : Resources) (p : Planet) (r : ResName) :
  (0 <=? get (raw p) r) = true ->
  (get (raw (snd (mu refStd p r))) r <? 0) = false.
Proof.
  intros Hraw. rewrite mu_raw. unfold mining. cbn zeta.
  now apply sub_min_not_negative.
Qed.

(** X10.  A reserve of water, food or energy that is not negative before
    [step] is not negative after it, on any planet, alive or dead: it is a
    number that is not below zero, or NaN. *)
Theorem step_raw_not_negative (refStd : Resources) (p : Planet)
        (r : ResName) :
  r <> population ->
  (0 <=? get (raw p) r) = true ->
  (get (raw (step refStd p)) r <? 0) = false.
Proof.
  intros Hr Hraw. destruct (dead p) eqn:Hdead.
  { rewrite (step_of_dead refStd p Hdead). now apply leb_zero_not_below. }
  unfold step, dead in *. rewrite Hdead.
  pose proof (mu_frame refStd p water) as F1.
  pose proof (mu_raw_not_negative refStd p water) as A1.
  destruct (mu refStd p water) as [r1 p1]. cbn [snd] in F1, A1.
  set (q1 := with_rate p1 (set (rate p1) water r1)).
  pose proof (mu_frame refStd q1 food) as F2.
  pose proof (mu_raw_not_negative refStd q1 food) as A2.
  destruct (mu refStd q1 food) as [r2 p2]. cbn [snd] in F2, A2.
  set (q2 := with_rate p2 (set (rate p2) food r2)).
  pose proof (mu_frame refStd q2 energy) as F3.
  pose proof (mu_raw_not_negative refStd q2 energy) as A3.
  destruct (mu refStd q2 energy) as [r3 p3]. cbn [snd] in F3, A3.
  set (q3 := with_rate p3 (set (rate p3) energy r3)).
  pose proof (birth_frame refStd q3) as F4.
  destruct (birth refStd q3) as [r4 p4]. cbn [snd] in F4.
  destruct F1 as (_ & _ & _ & _ & R1), F2 as (_ & _ & _ & _ & R2),
           F3 as (_ & _ & _ & _ & R3), F4 as (_ & _ & R4 & _).
  cbn [raw with_qolRate with_info with_rate].
  rewrite R4. unfold q3. cbn [raw with_rate].
  destruct r; try (now destruct Hr).
  - destruct (R3 water) as [-> _]; [discriminate |].
    unfold q2. cbn [raw with_rate].
    destruct (R2 water) as [-> _]; [discriminate |]. now apply A1.
  - destruct (R3 food) as [-> _]; [discriminate |].
    apply A2. unfold q1. cbn [raw with_rate].
    destruct (R1 food) as [-> _]; [discriminate | exact Hraw].
  - apply A3. unfold q2. cbn [raw with_rate].
    destruct (R2 energy) as [-> _]; [discriminate |].
    unfold q1. cbn [raw with_rate].
    destruct (R1 energy) as [-> _]; [discriminate | exact Hraw].
Qed.

Lemma step_raw_not_negative_witness :
  (get (raw (step examples.refStd examples.colony)) water <? 0) = false.
Proof.
  apply (step_raw_not_negative examples.refStd examples.colony water);
    [discriminate | reflexivity].
Defined.

(** X11.  On a living planet the available water, food and energy are never
    negative after [step]: each is a number that is not below zero, or
    NaN. *)
Theorem step_stock_not_negative (refStd : Resources) (p : Planet)
        (r : ResName) :
  r <> population ->
  dead p = false ->
  (get (available (step refStd p)) r <? 0) = false.
Proof. apply step_available_not_negative. Qed.

Lemma step_stock_not_negative_witness :
  (get (available (step examples.refStd examples.colony)) food <? 0) = false.
Proof.
  apply (step_stock_not_negative examples.refStd examples.colony food);
    [discriminate | reflexivity].
Defined.

(** ** What [step] does not read *)

(** Reduce the record bookkeeping of the state-passing functions, and
    nothing of the arithmetic. *)
Ltac bookkeeping :=
  cbn [fst snd get set raw available rate info name qolRate
       with_raw with_available with_rate with_qolRate with_info with_theta
       setPopulation attrited
       res_water res_food res_energy res_population
       gravity distance period theta initResources].

(** [step] on a living planet, stage by stage. *)
Lemma step_alive (refStd : Resources) (p : Planet) :
  dead p = false ->
  step refStd p =
  let m1 := mu refStd p water in
  let q1 := with_rate (snd m1) (set (rate (snd m1)) water (fst m1)) in
  let m2 := mu refStd q1 food in
  let q2 := with_rate (snd m2) (set (rate (snd m2)) food (fst m2)) in
  let m3 := mu refStd q2 energy in
  let q3 := with_rate (snd m3) (set (rate (snd m3)) energy (fst m3)) in
  let b := birth refStd q3 in
  let q4 := with_rate (snd b) (set (rate (snd b)) population (fst b)) in
  let q5 := with_info q4
              (with_theta (info q4)
                 (theta (info q4) + (2 * JS.Math_PI) / period (info q4))) in
  let q6 := with_info q5
              (with_theta (info q5)
                 (JS.rem (theta (info q5)) (2 * JS.Math_PI))) in
  with_qolRate q6 (totalQol refStd q6 / totalQol refStd p - 1).
Proof.
  unfold dead, step. intros Halive. rewrite Halive. cbn zeta.
  destruct (mu refStd p water) as [r1 p1]. cbn [fst snd].
  destruct (mu refStd _ food) as [r2 p2]. cbn [fst snd].
  destruct (mu refStd _ energy) as [r3 p3]. cbn [fst snd].
  destruct (birth refStd _) as [r4 p4]. reflexivity.
Qed.

(** *** Energy *)

Ltac split_planets p q H :=
  destruct p as [pn [pg pd pp pt [piw pif pie pip]] [prw prf pre prp]
                    [paw paf pae pap] [ptw ptf pte ptp] pq],
           q as [qn [qg qd qp qt [qiw qif qie qip]] [qrw qrf qre qrp]
                    [qaw qaf qae qap] [qtw qtf qte qtp] qq];
  unfold without_energy in H; bookkeeping; cbn [fst snd] in H;
  injection H as; subst.

Section Energy.
Variable refStd : Resources.

Lemma mu_without_energy (p q : Planet) (k : ResName) :
  k <> energy ->
  without_energy p = without_energy q ->
  fst (mu refStd p k) = fst (mu refStd q k) /\
  without_energy (snd (mu refStd p k)) = without_energy (snd (mu refStd q k)).
Proof.
  intros Hk H. split_planets p q H.
  unfold mu, mining, reqAmt, abundance. cbn zeta.
  destruct k; try (now destruct Hk); bookkeeping;
    match goal with |- context [if ?c then _ else _] => destruct c end;
    split; reflexivity.
Qed.

Lemma mu_energy_without_energy (p q : Planet) :
  without_energy p = without_energy q ->
  without_energy (snd (mu refStd p energy)) =
  without_energy (snd (mu refStd q energy)).
Proof.
  intros H. split_planets p q H.
  unfold mu. cbn zeta. bookkeeping.
  destruct (pae =? 0), (qae =? 0); reflexivity.
Qed.

Lemma set_rate_without_energy (p q : Planet) (k : ResName) (v w : float) :
  (k <> energy -> v = w) ->
  without_energy p = without_energy q ->
  without_energy (with_rate p (set (rate p) k v)) =
  without_energy (with_rate q (set (rate q) k w)).
Proof.
  intros Hv H. split_planets p q H.
  destruct k; try (rewrite Hv by discriminate); reflexivity.
Qed.

Lemma birth_without_energy (p q : Planet) :
  without_energy p = without_energy q ->
  fst (birth refStd p) = fst (birth refStd q) /\
  without_energy (snd (birth refStd p)) =
  without_energy (snd (birth refStd q)).
Proof. intros H. split_planets p q H. split; reflexivity. Qed.

Lemma turn_without_energy (p q : Planet) (f : float -> float -> float) :
  without_energy p = without_energy q ->
  without_energy
    (with_info p (with_theta (info p) (f (theta (info p)) (period (info p)))))
  = without_energy
    (with_info q (with_theta (info q) (f (theta (info q)) (period (info q))))).
Proof. intros H. split_planets p q H. reflexivity. Qed.

Lemma totalQol_without_energy (p q : Planet) :
  without_energy p = without_energy q ->
  totalQol refStd p = totalQol refStd q /\ dead p = dead q.
Proof. intros H. split_planets p q H. split; reflexivity. Qed.

Lemma qolRate_without_energy (p q : Planet) (v : float) :
  without_energy p = without_energy q ->
  without_energy (with_qolRate p v) = without_energy (with_qolRate q v).
Proof. intros H. split_planets p q H. reflexivity. Qed.
End Energy.

(** Two planets other than the reference that differ only in their
    energy (endowment, reserve, stock, rate) differ only in their energy
    after [step]; population, water, food, quality of life and all other
    rates come out the same. *)
Lemma step_apart_without_energy (refStd : Resources) (p q : Planet) :
  without_energy p = without_energy q ->
  without_energy (step refStd p) = without_energy (step refStd q) /\
  totalQol refStd (step refStd p) = totalQol refStd (step refStd q).
Proof.
  intros H.
  assert (Hgoal : without_energy (step refStd p) =
                  without_energy (step refStd q)).
  { destruct (totalQol_without_energy refStd p q H) as [Hqol Hdead].
    destruct (dead p) eqn:Dp; symmetry in Hdead.
    - now rewrite (step_of_dead refStd p Dp), (step_of_dead refStd q Hdead).
    - rewrite (step_alive refStd p Dp), (step_alive refStd q Hdead).
      cbn zeta. rewrite Hqol.
      set (m1p := mu refStd p water). set (m1q := mu refStd q water).
      assert (H1 : without_energy
                     (with_rate (snd m1p) (set (rate (snd m1p)) water (fst m1p)))
                   = without_energy
                     (with_rate (snd m1q) (set (rate (snd m1q)) water (fst m1q)))).
      { destruct (mu_without_energy refStd p q water ltac:(discriminate) H).
        now apply set_rate_without_energy. }
      set (q1p := with_rate (snd m1p) _) in *.
      set (q1q := with_rate (snd m1q) _) in *.
      set (m2p := mu refStd q1p food). set (m2q := mu refStd q1q food).
      assert (H2 : without_energy
                     (with_rate (snd m2p) (set (rate (snd m2p)) food (fst m2p)))
                   = without_energy
                     (with_rate (snd m2q) (set (rate (snd m2q)) food (fst m2q)))).
      { destruct (mu_without_energy refStd q1p q1q food ltac:(discriminate) H1).
        now apply set_rate_without_energy. }
      set (q2p := with_rate (snd m2p) _) in *.
      set (q2q := with_rate (snd m2q) _) in *.
      set (m3p := mu refStd q2p energy). set (m3q := mu refStd q2q energy).
      assert (H3 : without_energy
                     (with_rate (snd m3p) (set (rate (snd m3p)) energy (fst m3p)))
                   = without_energy
                     (with_rate (snd m3q) (set (rate (snd m3q)) energy (fst m3q)))).
      { apply set_rate_without_energy; [intros Hne; now destruct Hne |].
        now apply mu_energy_without_energy. }
      set (q3p := with_rate (snd m3p) _) in *.
      set (q3q := with_rate (snd m3q) _) in *.
      set (bp := birth refStd q3p). set (bq := birth refStd q3q).
      assert (H4 : without_energy
                     (with_rate (snd bp) (set (rate (snd bp)) population (fst bp)))
                   = without_energy
                     (with_rate (snd bq) (set (rate (snd bq)) population (fst bq)))).
      { destruct (birth_without_energy refStd q3p q3q H3).
        now apply set_rate_without_energy. }
      set (q4p := with_rate (snd bp) _) in *.
      set (q4q := with_rate (snd bq) _) in *.
      pose proof (turn_without_energy q4p q4q
                    (fun t per => t + (2 * JS.Math_PI) / per) H4) as H5.
      cbn beta in H5.
      set (q5p := with_info q4p _) in *. set (q5q := with_info q4q _) in *.
      pose proof (turn_without_energy q5p q5q
                    (fun t _ => JS.rem t (2 * JS.Math_PI)) H5) as H6.
      cbn beta in H6.
      set (q6p := with_info q5p _) in *. set (q6q := with_info q5q _) in *.
      destruct (totalQol_without_energy refStd q6p q6q H6) as [Hq6 _].
      rewrite Hq6. now apply qolRate_without_energy. }
  split; [exact Hgoal |].
  now destruct (totalQol_without_energy refStd _ _ Hgoal).
Qed.

(** *** Rates *)

Ltac split_rates p q H :=
  destruct p as [pn pi pr pa pt pq], q as [qn qi qr qa qt qq];
  unfold without_rates in H; bookkeeping; injection H as; subst.

Section Rates.
Variable refStd : Resources.

Lemma mu_without_rates (p q : Planet) (k : ResName) :
  without_rates p = without_rates q ->
  fst (mu refStd p k) = fst (mu refStd q k) /\
  without_rates (snd (mu refStd p k)) = without_rates (snd (mu refStd q k)).
Proof.
  intros H. split_rates p q H. unfold mu. cbn zeta. bookkeeping.
  match goal with |- context [if ?c then _ else _] => destruct c end;
    split; reflexivity.
Qed.

Lemma set_rate_without_rates (p q : Planet) (r r' : Resources) :
  without_rates p = without_rates q ->
  without_rates (with_rate p r) = without_rates (with_rate q r').
Proof. intros H. now split_rates p q H. Qed.

Lemma birth_without_rates (p q : Planet) :
  without_rates p = without_rates q ->
  fst (birth refStd p) = fst (birth refStd q) /\
  without_rates (snd (birth refStd p)) = without_rates (snd (birth refStd q)).
Proof. intros H. split_rates p q H. split; reflexivity. Qed.

Lemma turn_without_rates (p q : Planet) (f : float -> float -> float) :
  without_rates p = without_rates q ->
  without_rates
    (with_info p (with_theta (info p) (f (theta (info p)) (period (info p)))))
  = without_rates
    (with_info q (with_theta (info q) (f (theta (info q)) (period (info q))))).
Proof. intros H. now split_rates p q H. Qed.

Lemma totalQol_without_rates (p q : Planet) :
  without_rates p = without_rates q ->
  totalQol refStd p = totalQol refStd q /\ dead p = dead q.
Proof. intros H. split_rates p q H. split; reflexivity. Qed.

(** A planet is its blanked self with its rates put back. *)
Lemma with_rates_back (p q : Planet) (v : float) :
  without_rates p = without_rates q -> rate p = rate q ->
  with_qolRate p v = with_qolRate q v.
Proof. intros H Hr. split_rates p q H. cbn in Hr. now subst. Qed.
End Rates.

(** [step] reads neither the four rates nor [qolRate], and on a living
    planet it overwrites them all, so two living planets other than the
    reference that differ only in their rates are the same planet after
    [step]. *)
Lemma step_apart_ignores_rates (refStd : Resources) (p q : Planet) :
  without_rates p = without_rates q ->
  dead p = false ->
  step refStd p = step refStd q.
Proof.
  intros H Dp.
  destruct (totalQol_without_rates refStd p q H) as [Hqol Hdead].
  rewrite Dp in Hdead. symmetry in Hdead.
  rewrite (step_alive refStd p Dp), (step_alive refStd q Hdead).
  cbn zeta. rewrite Hqol.
  set (m1p := mu refStd p water). set (m1q := mu refStd q water).
  destruct (mu_without_rates refStd p q water H) as [E1 H1].
  fold m1p m1q in E1, H1.
  pose proof (set_rate_without_rates _ _ (set (rate (snd m1p)) water (fst m1p))
                (set (rate (snd m1q)) water (fst m1q)) H1) as H1'.
  set (q1p := with_rate (snd m1p) _) in *.
  set (q1q := with_rate (snd m1q) _) in *.
  set (m2p := mu refStd q1p food). set (m2q := mu refStd q1q food).
  destruct (mu_without_rates refStd q1p q1q food H1') as [E2 H2].
  fold m2p m2q in E2, H2.
  pose proof (set_rate_without_rates _ _ (set (rate (snd m2p)) food (fst m2p))
                (set (rate (snd m2q)) food (fst m2q)) H2) as H2'.
  set (q2p := with_rate (snd m2p) _) in *.
  set (q2q := with_rate (snd m2q) _) in *.
  set (m3p := mu refStd q2p energy). set (m3q := mu refStd q2q energy).
  destruct (mu_without_rates refStd q2p q2q energy H2') as [E3 H3].
  fold m3p m3q in E3, H3.
  pose proof (set_rate_without_rates _ _
                (set (rate (snd m3p)) energy (fst m3p))
                (set (rate (snd m3q)) energy (fst m3q)) H3) as H3'.
  set (q3p := with_rate (snd m3p) _) in *.
  set (q3q := with_rate (snd m3q) _) in *.
  set (bp := birth refStd q3p). set (bq := birth refStd q3q).
  destruct (birth_without_rates refStd q3p q3q H3') as [E4 H4].
  fold bp bq in E4, H4.
  pose proof (set_rate_without_rates _ _
                (set (rate (snd bp)) population (fst bp))
                (set (rate (snd bq)) population (fst bq)) H4) as H4'.
  assert (Hrate : set (rate (snd bp)) population (fst bp) =
                  set (rate (snd bq)) population (fst bq)).
  { assert (Rb : forall a, rate (snd (birth refStd a)) = rate a)
      by (intros a; apply (birth_frame refStd a)).
    assert (Rm : forall a k, rate (snd (mu refStd a k)) = rate a)
      by (intros a k; apply (mu_frame refStd a k)).
    unfold bp, bq. rewrite !Rb. fold bp bq.
    change (rate q3p) with (set (rate (snd m3p)) energy (fst m3p)).
    change (rate q3q) with (set (rate (snd m3q)) energy (fst m3q)).
    unfold m3p at 1, m3q at 1. rewrite !Rm.
    change (rate q2p) with (set (rate (snd m2p)) food (fst m2p)).
    change (rate q2q) with (set (rate (snd m2q)) food (fst m2q)).
    unfold m2p at 1, m2q at 1. rewrite !Rm.
    change (rate q1p) with (set (rate (snd m1p)) water (fst m1p)).
    change (rate q1q) with (set (rate (snd m1q)) water (fst m1q)).
    rewrite E1, E2, E3, E4. reflexivity. }
  set (q4p := with_rate (snd bp) _) in *.
  set (q4q := with_rate (snd bq) _) in *.
  pose proof (turn_without_rates q4p q4q
                (fun t per => t + (2 * JS.Math_PI) / per) H4') as H5.
  cbn beta in H5.
  set (q5p := with_info q4p _) in *. set (q5q := with_info q4q _) in *.
  pose proof (turn_without_rates q5p q5q
                (fun t _ => JS.rem t (2 * JS.Math_PI)) H5) as H6.
  cbn beta in H6.
  set (q6p := with_info q5p _) in *. set (q6q := with_info q5q _) in *.
  destruct (totalQol_without_rates refStd q6p q6q H6) as [Hq6 _].
  rewrite Hq6. apply with_rates_back; [exact H6 |].
  unfold q6p, q6q, q5p, q5q, q4p, q4q. cbn [rate with_info with_rate].
  exact Hrate.
Qed.

(** ** How [forward] ends a game *)

Section GameOver.
Variable refStd : Resources.
Variables cos sin : float -> float.



End GameOver.



(** ** Growth *)

Lemma add_not_negative (a b : float) :
  sf_not_negative (Prim2SF a) = true ->
  sf_not_negative (Prim2SF b) = true ->
  sf_not_negative (Prim2SF (a + b)) = true.
Proof.
  rewrite add_spec. unfold SF64add.
  destruct (Prim2SF a) as [sa | sa | | sa ma ea],
           (Prim2SF b) as [sb | sb | | sb mb eb];
    cbn [sf_not_negative]; intros Ha Hb;
    try (apply negb_true_iff in Ha); try (apply negb_true_iff in Hb);
    subst; try reflexivity.
  - destruct sa, sb; reflexivity.
  - cbn [SFadd cond_Zopp].
    set (X := fst (shl_align ma ea (Z.min ea eb))).
    set (Y := fst (shl_align mb eb (Z.min ea eb))).
    change (Z.add (Zpos X) (Zpos Y)) with (Zpos (X + Y)).
    cbn [binary_normalize].
    pose proof (binary_round_sign false (X + Y) (Z.min ea eb)) as H.
    destruct (binary_round prec emax false (X + Y) (Z.min ea eb));
      cbn [sf_not_negative]; try reflexivity; now rewrite H.
Qed.

Lemma mul_not_negative (a b : float) :
  sf_not_negative (Prim2SF a) = true ->
  sf_not_negative (Prim2SF b) = true ->
  sf_not_negative (Prim2SF (a * b)) = true.
Proof.
  rewrite mul_spec. unfold SF64mul.
  destruct (Prim2SF a) as [sa | sa | | sa ma ea],
           (Prim2SF b) as [sb | sb | | sb mb eb];
    cbn [sf_not_negative]; intros Ha Hb;
    try (apply negb_true_iff in Ha); try (apply negb_true_iff in Hb);
    subst; try reflexivity.
  cbn [SFmul xorb].
  pose proof (binary_round_aux_sign false (Zpos (ma * mb)) (ea + eb) loc_Exact)
    as H.
  destruct (binary_round_aux prec emax false _ _ _);
    cbn [sf_not_negative]; try reflexivity; now rewrite H.
Qed.

Lemma div_not_negative (a b : float) :
  sf_not_negative (Prim2SF a) = true ->
  sf_positive (Prim2SF b) = true ->
  sf_not_negative (Prim2SF (a / b)) = true.
Proof.
  rewrite div_spec. unfold SF64div.
  destruct (Prim2SF a) as [sa | sa | | sa ma ea],
           (Prim2SF b) as [sb | sb | | sb mb eb];
    cbn [sf_not_negative sf_positive]; intros Ha Hb;
    try discriminate;
    try (apply negb_true_iff in Ha); try (apply negb_true_iff in Hb);
    subst; try reflexivity.
  cbn [SFdiv xorb].
  destruct (SFdiv_core_binary prec emax (Zpos ma) ea (Zpos mb) eb)
    as [[mz ez] lz].
  pose proof (binary_round_aux_sign false mz ez lz) as H.
  destruct (binary_round_aux prec emax false mz ez lz);
    cbn [sf_not_negative]; try reflexivity; now rewrite H.
Qed.

Lemma not_negative_iff (v : float) :
  (v <? 0) = false <-> sf_not_negative (Prim2SF v) = true.
Proof. rewrite ltb_zero_sign. apply negb_false_iff. Qed.

Lemma Math_sign_not_negative (v : float) :
  sf_not_negative (Prim2SF v) = true ->
  sf_not_negative (Prim2SF (JS.Math_sign v)) = true.
Proof.
  intros H. unfold JS.Math_sign. destruct (0 <? v); [reflexivity |].
  apply not_negative_iff in H. now rewrite H, <- not_negative_iff.
Qed.

(** The birth rate is one of the two die-off rates or is not negative. *)
Lemma birthRate_sign (refStd : Resources) (p : Planet) :
  (0 <? qolPerCapita refStd (refPlanet refStd)) = true ->
  birthRate refStd p = - sim.quenchDieOff \/
  birthRate refStd p = - sim.hungerDieOff \/
  (birthRate refStd p <? 0) = false.
Proof.
  intros Href. unfold birthRate.
  destruct (quench refStd p <? 0) eqn:Hq; [now left |].
  destruct (fullness refStd p <? 0) eqn:Hf; [right; now left |].
  right; right. apply not_negative_iff in Hq, Hf. apply not_negative_iff.
  assert (Hprod : sf_not_negative (Prim2SF (productivity refStd p)) = true).
  { unfold productivity. apply div_not_negative;
      [| now rewrite <- ltb_zero_positive].
    unfold qolPerCapita.
    destruct (res_population (available p) =? 0); [reflexivity |].
    now apply add_not_negative. }
  apply mul_not_negative; [| reflexivity].
  apply mul_not_negative; [now apply Math_sign_not_negative |].
  now apply mul_not_negative.
Qed.

(** X15.  Outside the two die-offs the birth rate is never negative: with a
    reference quality of life above zero, the birth rate of any planet is
    exactly [-quenchDieOff], exactly [-hungerDieOff], or a number that is
    not below zero (or NaN). *)
Theorem birthRate_cases (refStd : Resources) (p : Planet) :
  (0 <? qolPerCapita refStd (refPlanet refStd)) = true ->
  birthRate refStd p = - sim.quenchDieOff \/
  birthRate refStd p = - sim.hungerDieOff \/
  (birthRate refStd p <? 0) = false.
Proof. apply birthRate_sign. Qed.

Lemma birthRate_cases_witness :
  birthRate examples.refStd examples.colony = - sim.quenchDieOff \/
  birthRate examples.refStd examples.colony = - sim.hungerDieOff \/
  (birthRate examples.refStd examples.colony <? 0) = false.
Proof. apply (birthRate_cases examples.refStd examples.colony). reflexivity. Defined.

(** ** A population that stays a population *)

Lemma SF2Prim_not_negative (y : spec_float) :
  sf_not_negative y = true -> sf_not_negative (Prim2SF (SF2Prim y)) = true.
Proof.
  destruct y as [s | s | | s m e]; cbn [sf_not_negative]; intros H;
    [destruct s; reflexivity | destruct s; [discriminate | reflexivity]
    | reflexivity |].
  apply negb_true_iff in H. subst s. unfold SF2Prim. cbv beta iota zeta.
  rewrite Z_ldexp_spec, of_uint63_spec.
  set (k := Uint63.to_Z _).
  assert (Hk : (0 <= k)%Z) by apply Uint63.to_Z_bounded.
  destruct k as [| n | n]; [reflexivity | | lia].
  cbn [binary_normalize].
  pose proof (binary_round_sign false n 0) as H.
  destruct (binary_round prec emax false n 0) as [s' | s' | | s' m' e'];
    cbn [SFldexp sf_not_negative]; try reflexivity; try (now rewrite H).
  subst s'. pose proof (binary_round_sign false m' (e' + e)) as H'.
  destruct (binary_round prec emax false m' (e' + e));
    cbn [sf_not_negative]; try reflexivity; now rewrite H'.
Qed.

(** Rounding to the nearest integer never makes a number negative. *)
Lemma Math_round_not_negative (v : float) :
  sf_not_negative (Prim2SF v) = true ->
  sf_not_negative (Prim2SF (JS.Math_round v)) = true.
Proof.
  intros H. unfold JS.Math_round.
  destruct (Prim2SF v) as [s | s | | s m e] eqn:E; try (now rewrite E).
  destruct (0 <=? e)%Z; [now rewrite E |].
  cbn [sf_not_negative] in H. apply negb_true_iff in H. subst s.
  unfold JS.of_scaled. apply SF2Prim_not_negative. cbn [cond_Zopp].
  set (n := Z.shiftr _ _).
  assert (Hn : (0 <= n)%Z).
  { unfold n. apply Z.shiftr_nonneg.
    pose proof (proj2 (Z.shiftl_nonneg (Zpos m) 1) ltac:(lia)).
    pose proof (proj2 (Z.shiftl_nonneg 1 (- e)) ltac:(lia)). lia. }
  destruct n as [| n | n]; [reflexivity | | lia].
  cbn [binary_normalize].
  pose proof (binary_round_sign false n 0) as H.
  destruct (binary_round prec emax false n 0);
    cbn [sf_not_negative]; try reflexivity; now rewrite H.
Qed.

Lemma leb_one_positive (v : float) :
  (1 <=? v) = true -> (0 <=? v) = true.
Proof.
  rewrite (leb_spec 1 v), (leb_spec 0 v), Prim2SF_zero.
  replace (Prim2SF 1) with (S754_finite false 4503599627370496 (-52))
    by reflexivity.
  unfold SFleb.
  destruct (Prim2SF v) as [s | s | | s m e]; try destruct s;
    intros H; (reflexivity || discriminate H).
Qed.

Section Births.
Variable refStd : Resources.
Hypothesis reference :
  (0 <? qolPerCapita refStd (refPlanet refStd)) = true.

Lemma birth_not_negative (q : Planet) :
  (1 <=? res_population (available q)) = true ->
  (res_population (available (snd (birth refStd q))) <? 0) = false.
Proof.
  intros Hpop. apply not_negative_iff.
  change (res_population (available (snd (birth refStd q))))
    with (JS.Math_round ((res_population (available q) - 1) *
                         (1 + birthRate refStd (attrited q)))).
  apply Math_round_not_negative, mul_not_negative.
  - apply not_negative_iff, sub_not_negative;
      [now apply leb_one_positive | exact Hpop].
  - destruct (birthRate_sign refStd (attrited q) reference)
      as [-> | [-> | Hr]]; try reflexivity.
    apply add_not_negative; [reflexivity | now apply not_negative_iff].
Qed.
End Births.

(** X16.  A population of zero or of at least one is never negative after
    [step]: it is a number that is not below zero, or NaN.  The reference
    quality of life is above zero. *)
Theorem step_population_not_negative (refStd : Resources) (p : Planet) :
  (0 <? qolPerCapita refStd (refPlanet refStd)) = true ->
  (res_population (available p) =? 0) ||
  (1 <=? res_population (available p)) = true ->
  (res_population (available (step refStd p)) <? 0) = false.
Proof.
  intros Href Hpop. destruct (dead p) eqn:Hdead.
  - rewrite (step_of_dead refStd p Hdead). unfold dead in Hdead.
    destruct (eqb_zero_inv _ Hdead) as [s Hs].
    apply not_negative_iff. now rewrite Hs.
  - unfold dead in Hdead. rewrite Hdead in Hpop. cbn [orb] in Hpop.
    destruct (step_population refStd p) as (q & Hq & ->);
      [exact Hdead |].
    apply birth_not_negative; [exact Href | now rewrite Hq].
Qed.

Lemma step_population_not_negative_witness :
  (res_population (available (step examples.refStd examples.colony)) <? 0)
  = false.
Proof.
  apply (step_population_not_negative examples.refStd examples.colony);
    reflexivity.
Defined.

(** ** The reference planet as the unit of the scale *)

Lemma ordinary_inv (v : float) :
  ordinary v = true -> exists s m e, Prim2SF v = S754_finite s m e.
Proof.
  unfold ordinary. intros H. apply andb_prop in H. destruct H as [Hf Hz].
  destruct (is_finite_inv v Hf) as [[s Hs] | H]; [| exact H].
  rewrite (eqb_zero_intro v s Hs) in Hz. discriminate.
Qed.

Lemma div_eucl_shifted (m : positive) :
  Z.div_eucl (Z.shiftl (Zpos m) 53) (Zpos m) = (9007199254740992%Z, 0%Z).
Proof.
  rewrite Z.shiftl_mul_pow2 by lia.
  change (2 ^ 53)%Z with 9007199254740992%Z.
  pose proof (Z.div_mul 9007199254740992 (Zpos m) ltac:(lia)) as Hq.
  pose proof (Z.mod_mul 9007199254740992 (Zpos m) ltac:(lia)) as Hr.
  unfold Z.div, Z.modulo in Hq, Hr.
  rewrite (Z.mul_comm (Zpos m)).
  destruct (Z.div_eucl (9007199254740992 * Zpos m) (Zpos m)) as [q r].
  cbn [fst snd] in *. now subst.
Qed.

(** An ordinary number divided by itself is exactly 1. *)
Lemma div_self (v : float) : ordinary v = true -> v / v = 1.
Proof.
  intros H. destruct (ordinary_inv v H) as (s & m & e & Hv).
  apply Prim2SF_inj. rewrite div_spec, Hv. unfold SF64div. cbn [SFdiv].
  unfold SFdiv_core_binary.
  replace (Zdigits2 (Zpos m) + e - (Zdigits2 (Zpos m) + e))%Z with 0%Z by lia.
  rewrite Z.sub_diag.
  change (Z.min (fexp prec emax 0) 0) with (-53)%Z.
  change (0 - -53)%Z with 53%Z. cbv iota.
  rewrite div_eucl_shifted.
  replace (xorb s s) with false by now destruct s.
  assert (Hloc : new_location (Zpos m) 0 = loc_Exact).
  { unfold new_location. now destruct (Z.even (Zpos m)). }
  rewrite Hloc. reflexivity.
Qed.

(** A quotient that is an ordinary number has a divisor other than zero. *)
Lemma ordinary_quotient (a b : float) :
  ordinary (a / b) = true -> (b =? 0) = false.
Proof.
  intros H. destruct (ordinary_inv _ H) as (s & m & e & Hq). revert Hq.
  rewrite div_spec, (eqb_spec b 0), Prim2SF_zero. unfold SF64div, SFeqb.
  destruct (Prim2SF a) as [sa | sa | | sa ma ea],
           (Prim2SF b) as [sb | sb | | sb mb eb];
    cbn [SFdiv SFcompare]; try discriminate; intros _;
    try reflexivity; now destruct sb.
Qed.

Section AtReference.
Variable refStd : Resources.
Hypothesis water_ordinary :
  ordinary (waterPerCapita (refPlanet refStd)) = true.
Hypothesis food_ordinary :
  ordinary (foodPerCapita (refPlanet refStd)) = true.

(** A living planet whose people have what the reference has. *)
Lemma qol_at_reference (p : Planet) :
  dead p = false ->
  waterPerCapita p = waterPerCapita (refPlanet refStd) ->
  foodPerCapita p = foodPerCapita (refPlanet refStd) ->
  quench refStd p = 0.5 /\ fullness refStd p = 0.5 /\
  qolPerCapita refStd p = 1.
Proof.
  intros Halive Hw Hf.
  assert (Hq : quench refStd p = 0.5).
  { unfold quench. rewrite Hw, (div_self _ water_ordinary). reflexivity. }
  assert (Hfu : fullness refStd p = 0.5).
  { unfold fullness. rewrite Hf, (div_self _ food_ordinary). reflexivity. }
  repeat split; try assumption.
  unfold qolPerCapita. unfold dead in Halive. now rewrite Halive, Hq, Hfu.
Qed.

Lemma reference_alive : dead (refPlanet refStd) = false.
Proof. unfold dead. exact (ordinary_quotient _ _ water_ordinary). Qed.

Lemma reference_qol : qolPerCapita refStd (refPlanet refStd) = 1.
Proof. now apply qol_at_reference; [apply reference_alive | |]. Qed.
End AtReference.

(** X17.  The reference planet is the unit of the scale: when its water
    and food per person are ordinary numbers (finite and not zero), it is
    alive, its quench and fullness are exactly 0.5 and its quality of life
    per person and its productivity are exactly 1. *)
Theorem reference_planet_is_unit (refStd : Resources) :
  ordinary (waterPerCapita (refPlanet refStd)) = true ->
  ordinary (foodPerCapita (refPlanet refStd)) = true ->
  let ref := refPlanet refStd in
  dead ref = false /\
  quench refStd ref = 0.5 /\ fullness refStd ref = 0.5 /\
  qolPerCapita refStd ref = 1 /\ productivity refStd ref = 1.
Proof.
  intros Hw Hf. cbn zeta.
  pose proof (reference_alive refStd Hw) as Halive.
  destruct (qol_at_reference refStd Hw Hf (refPlanet refStd) Halive
              eq_refl eq_refl) as (Hq & Hfu & Hqol).
  repeat split; try assumption.
  unfold productivity. now rewrite Hqol.
Qed.

Lemma reference_planet_is_unit_witness :
  qolPerCapita examples.refStd (refPlanet examples.refStd) = 1.
Proof.
  apply (reference_planet_is_unit examples.refStd); reflexivity.
Defined.

(** X18.  Living as the reference does: a living planet whose water and
    food per person equal the reference's (ordinary numbers) has a quality
    of life per person and a productivity of exactly 1, and its birth rate
    is exactly the constant [sim.birthRate]. *)
Theorem growth_at_reference (refStd : Resources) (p : Planet) :
  ordinary (waterPerCapita (refPlanet refStd)) = true ->
  ordinary (foodPerCapita (refPlanet refStd)) = true ->
  dead p = false ->
  waterPerCapita p = waterPerCapita (refPlanet refStd) ->
  foodPerCapita p = foodPerCapita (refPlanet refStd) ->
  qolPerCapita refStd p = 1 /\
  productivity refStd p = 1 /\
  birthRate refStd p = sim.birthRate.
Proof.
  intros Hw Hf Halive Hpw Hpf.
  destruct (qol_at_reference refStd Hw Hf p Halive Hpw Hpf)
    as (Hq & Hfu & Hqol).
  assert (Hprod : productivity refStd p = 1).
  { unfold productivity. now rewrite Hqol, (reference_qol refStd Hw Hf). }
  repeat split; try assumption.
  unfold birthRate. now rewrite Hq, Hfu, Hprod.
Qed.

Lemma growth_at_reference_witness :
  let p := with_available examples.colony (mkResources 400 200 0 100) in
  birthRate examples.refStd p = sim.birthRate.
Proof.
  apply (growth_at_reference examples.refStd); reflexivity.
Defined.

(** X19.  A newly built planet is untouched: for every resource whose
    endowment is an ordinary number (finite and not zero) its abundance is
    exactly 1. *)
Theorem abundance_of_new_planet (name : string) (state : PlanetaryState)
        (r : ResName) :
  ordinary (get (initResources state) r) = true ->
  abundance (new_Planet name state) r = 1.
Proof. intros H. unfold abundance, new_Planet. cbn. now apply div_self. Qed.

Lemma abundance_of_new_planet_witness :
  abundance examples.dark water = 1.
Proof.
  apply (abundance_of_new_planet "dark"
           (examples.orbit (mkResources 1e9 1e9 0 100)) water).
  reflexivity.
Defined.

(** ** The shared reference planet *)

(** *** A planet other than the reference *)

(** The getters read the reference's available stock and nothing else of
    it. *)
Lemma reference_reads (ref : Planet) :
  waterPerCapita (refPlanet (available ref)) = waterPerCapita ref /\
  foodPerCapita (refPlanet (available ref)) = foodPerCapita ref /\
  available (refPlanet (available ref)) = available ref.
Proof. repeat split. Qed.

Section Apart.
Variable h : world.Heap.
Let refStd : Resources := available (world.reference h).
Let p : Planet := world.other h.

Lemma quench_apart : world.quench h world.Other = quench refStd p.
Proof. reflexivity. Qed.

Lemma fullness_apart : world.fullness h world.Other = fullness refStd p.
Proof. reflexivity. Qed.

Lemma qolPerCapita_apart :
  world.qolPerCapita h world.Other = qolPerCapita refStd p.
Proof. reflexivity. Qed.

Lemma qolPerCapita_reference :
  world.qolPerCapita h world.Reference =
  qolPerCapita refStd (refPlanet refStd).
Proof. reflexivity. Qed.

Lemma totalQol_apart : world.totalQol h world.Other = totalQol refStd p.
Proof. reflexivity. Qed.

Lemma birthRate_apart : world.birthRate h world.Other = birthRate refStd p.
Proof. reflexivity. Qed.

Lemma mu_apart (r : ResName) :
  world.mu h world.Other r =
  (fst (mu refStd p r), world.mkHeap (world.reference h) (snd (mu refStd p r))).
Proof.
  unfold world.mu, mu. cbn zeta.
  cbn [world.deref world.assign world.other world.reference].
  fold p. unfold refStd.
  destruct (get (available _) r =? 0); reflexivity.
Qed.

Lemma birth_apart :
  world.birth h world.Other =
  (fst (birth refStd p),
   world.mkHeap (world.reference h) (snd (birth refStd p))).
Proof. reflexivity. Qed.
End Apart.

(** Called on a planet other than the reference, [step] is the [step] of
    module [planet] at the reference's available stock, and the reference
    is left as it was. *)
Lemma step_apart (h : world.Heap) :
  world.step h world.Other =
  world.mkHeap (world.reference h)
               (step (available (world.reference h)) (world.other h)).
Proof.
  destruct h as [ref p]. unfold world.step, step.
  cbn [world.deref world.other world.reference].
  rewrite totalQol_apart. cbn [world.other world.reference].
  destruct (res_population (available p) =? 0); [reflexivity |].
  rewrite mu_apart. cbn [world.other world.reference].
  destruct (mu (available ref) p water) as [r1 p1]. cbn [fst snd world.assign
    world.other world.reference].
  rewrite mu_apart. cbn [world.other world.reference].
  destruct (mu (available ref) _ food) as [r2 p2]. cbn [fst snd world.assign
    world.other world.reference].
  rewrite mu_apart. cbn [world.other world.reference].
  destruct (mu (available ref) _ energy) as [r3 p3]. cbn [fst snd world.assign
    world.other world.reference].
  rewrite birth_apart. cbn [world.other world.reference].
  destruct (birth (available ref) _) as [r4 p4]. cbn [fst snd world.assign
    world.other world.reference].
  rewrite totalQol_apart. reflexivity.
Qed.

(** With the reference as it is exported, a day on another planet is the
    [step] of module [planet] at [refStd]. *)
Lemma step_exported (refStd : Resources) (p : Planet) :
  world.step (world.exported refStd p) world.Other =
  world.exported refStd (step refStd p).
Proof. now rewrite step_apart. Qed.

(** X5.  The last inhabitant does not survive the day: a planet other than
    the reference, with a population of exactly 1, is dead after [step],
    whatever its stock, and the reference is as it was.  The reference
    planet's quality of life per person is a number other than zero. *)
Theorem last_inhabitant_dies (h : world.Heap) (this : world.Obj) :
  this <> world.Reference ->
  res_population (available (world.deref h this)) = 1 ->
  (world.qolPerCapita h world.Reference =? 0) = false ->
  is_nan (world.qolPerCapita h world.Reference) = false ->
  let h' := world.step h this in
  res_population (available (world.deref h' this)) = 0 /\
  dead (world.deref h' this) = true /\
  world.reference h' = world.reference h.
Proof.
  intros Hthis H1 Hq Hn. destruct this; [contradiction |].
  cbn zeta. rewrite step_apart. rewrite qolPerCapita_reference in Hq, Hn.
  cbn [world.deref world.other world.reference] in *.
  destruct (step_of_one _ _ H1 Hq Hn) as [H0 Hdead]. auto.
Qed.

Lemma last_inhabitant_dies_witness :
  let hermit := with_available examples.colony (mkResources 1e6 1e6 0 1) in
  let h := world.exported examples.refStd hermit in
  let h' := world.step h world.Other in
  res_population (available (world.deref h' world.Other)) = 0 /\
  dead (world.deref h' world.Other) = true /\
  world.reference h' = world.reference h.
Proof.
  intros hermit h.
  apply (last_inhabitant_dies h world.Other);
    [discriminate | reflexivity ..].
Defined.

(** X12.  Energy decides nothing else: two planets, neither of them the
    reference, that differ only in their energy (endowment, reserve,
    stock, rate) differ only in their energy after [step]; population,
    water, food, quality of life and all other rates come out the same. *)
Theorem step_without_energy (h h' : world.Heap) (this this' : world.Obj) :
  this <> world.Reference -> this' <> world.Reference ->
  world.reference h = world.reference h' ->
  without_energy (world.deref h this) = without_energy (world.deref h' this') ->
  without_energy (world.deref (world.step h this) this) =
  without_energy (world.deref (world.step h' this') this') /\
  world.totalQol (world.step h this) this =
  world.totalQol (world.step h' this') this'.
Proof.
  intros Hthis Hthis' Href H.
  destruct this; [contradiction |]. destruct this'; [contradiction |].
  rewrite !step_apart, !totalQol_apart.
  cbn [world.deref world.other world.reference] in *.
  rewrite <- Href. now apply step_apart_without_energy.
Qed.

Lemma step_without_energy_witness :
  let powered := with_available examples.colony (mkResources 100 50 7e8 100) in
  let h := world.exported examples.refStd powered in
  let h' := world.exported examples.refStd examples.colony in
  without_energy (world.deref (world.step h world.Other) world.Other) =
  without_energy (world.deref (world.step h' world.Other) world.Other).
Proof.
  intros powered h h'.
  apply (step_without_energy h h' world.Other world.Other);
    [discriminate | discriminate | reflexivity ..].
Defined.

(** X13.  The rates are outputs only: [step] reads neither the four rates
    nor [qolRate], and on a living planet it overwrites them all, so two
    living planets, neither of them the reference, that differ only in
    their rates are the same planet after [step]. *)
Theorem step_ignores_rates (h h' : world.Heap) (this this' : world.Obj) :
  this <> world.Reference -> this' <> world.Reference ->
  world.reference h = world.reference h' ->
  without_rates (world.deref h this) = without_rates (world.deref h' this') ->
  dead (world.deref h this) = false ->
  world.deref (world.step h this) this =
  world.deref (world.step h' this') this'.
Proof.
  intros Hthis Hthis' Href H Halive.
  destruct this; [contradiction |]. destruct this'; [contradiction |].
  rewrite !step_apart.
  cbn [world.deref world.other world.reference] in *.
  rewrite <- Href. now apply step_apart_ignores_rates.
Qed.

Lemma step_ignores_rates_witness :
  let h := world.exported examples.refStd
             (with_qolRate (with_rate examples.colony (mkResources 1 2 3 4))
                           5) in
  let h' := world.exported examples.refStd examples.colony in
  world.deref (world.step h world.Other) world.Other =
  world.deref (world.step h' world.Other) world.Other.
Proof.
  intros h h'.
  apply (step_ignores_rates h h' world.Other world.Other);
    [discriminate | discriminate | reflexivity ..].
Defined.

(** *** The reference planet itself *)

(** A number divided by zero is an infinity or NaN, and divided by itself
    then NaN. *)
Lemma div_zero_self (w : float) : (w / 0) / (w / 0) = nan.
Proof.
  apply Prim2SF_inj.
  rewrite (div_spec (w / 0) (w / 0)), (div_spec w 0), Prim2SF_zero.
  unfold SF64div.
  destruct (Prim2SF w) as [s | s | | s m e]; reflexivity.
Qed.

(** [mu] leaves the population of the planet it is called on alone. *)
Lemma mu_population (h : world.Heap) (this : world.Obj) (r : ResName) :
  r <> population ->
  res_population (available (world.deref (snd (world.mu h this r)) this)) =
  res_population (available (world.deref h this)).
Proof.
  intros Hr. destruct h as [ref p]. unfold world.mu. cbn zeta.
  destruct (get (available _) r =? 0); cbn [snd];
    destruct this, r; try contradiction; reflexivity.
Qed.

(** With nobody on the reference planet its per-capita figures are those
    of a division by zero, and its birth rate is NaN. *)
Lemma birthRate_reference_nobody (h : world.Heap) :
  res_population (available (world.reference h)) = 0 ->
  world.birthRate h world.Reference = nan.
Proof.
  intros H0.
  assert (Hq : world.quench h world.Reference = nan).
  { unfold world.quench, waterPerCapita. cbn [world.deref].
    now rewrite H0, div_zero_self. }
  assert (Hf : world.fullness h world.Reference = nan).
  { unfold world.fullness, foodPerCapita. cbn [world.deref].
    now rewrite H0, div_zero_self. }
  assert (Hp : world.productivity h world.Reference = nan).
  { unfold world.productivity, world.qolPerCapita. cbn [world.deref].
    now rewrite H0. }
  unfold world.birthRate. now rewrite Hq, Hf, Hp.
Qed.

(** [birth] on a reference planet of one leaves a population of NaN. *)
Lemma birth_reference_of_one (h : world.Heap) :
  res_population (available (world.reference h)) = 1 ->
  res_population
    (available (world.reference (snd (world.birth h world.Reference)))) = nan.
Proof.
  intros H1. unfold world.birth. cbn zeta. cbn [snd].
  set (h1 := world.assign h world.Reference attrited).
  assert (Ha : res_population (available (world.reference h1)) = 0).
  { unfold h1, attrited, setPopulation. cbn. now rewrite H1. }
  rewrite (birthRate_reference_nobody h1 Ha).
  cbn [world.assign world.reference setPopulation available with_available
       set res_population].
  now rewrite Ha.
Qed.

(** On a living planet the population after [step] is the one [birth]
    leaves, and [birth] starts from the population [step] started with:
    the three calls of [mu] and the rates stored between do not touch it. *)
Lemma step_population_shared (h : world.Heap) (this : world.Obj) :
  dead (world.deref h this) = false ->
  exists h3,
    res_population (available (world.deref h3 this)) =
    res_population (available (world.deref h this)) /\
    res_population (available (world.deref (world.step h this) this)) =
    res_population
      (available (world.deref (snd (world.birth h3 this)) this)).
Proof.
  intros Halive. unfold world.step, dead in *. rewrite Halive.
  pose proof (mu_population h this water ltac:(discriminate)) as F1.
  destruct (world.mu h this water) as [r1 h1]. cbn [snd] in F1.
  set (g1 := world.assign h1 this _).
  assert (G1 : res_population (available (world.deref g1 this)) =
               res_population (available (world.deref h this))).
  { rewrite <- F1. unfold g1. destruct this; reflexivity. }
  pose proof (mu_population g1 this food ltac:(discriminate)) as F2.
  destruct (world.mu g1 this food) as [r2 h2]. cbn [snd] in F2.
  set (g2 := world.assign h2 this _).
  assert (G2 : res_population (available (world.deref g2 this)) =
               res_population (available (world.deref h this))).
  { rewrite <- G1, <- F2. unfold g2. destruct this; reflexivity. }
  pose proof (mu_population g2 this energy ltac:(discriminate)) as F3.
  destruct (world.mu g2 this energy) as [r3 h3]. cbn [snd] in F3.
  set (g3 := world.assign h3 this _).
  assert (G3 : res_population (available (world.deref g3 this)) =
               res_population (available (world.deref h this))).
  { rewrite <- G2, <- F3. unfold g3. destruct this; reflexivity. }
  exists g3. split; [exact G3 |].
  destruct (world.birth g3 this) as [r4 h4]. cbn [snd].
  destruct this; reflexivity.
Qed.

(** X20.  The reference planet is not a planet like the others: [step]
    called on the reference itself, with a population of exactly 1, leaves
    its population NaN, so it is not dead, where any other planet of one is
    dead after the day.  Once its one inhabitant is subtracted the
    reference's own figures per person are divisions by zero, and it is
    measured against them. *)
Theorem reference_last_inhabitant (h : world.Heap) :
  res_population (available (world.reference h)) = 1 ->
  let h' := world.step h world.Reference in
  is_nan (res_population (available (world.reference h'))) = true /\
  dead (world.reference h') = false.
Proof.
  intros H1. cbn zeta.
  assert (Halive : dead (world.deref h world.Reference) = false).
  { unfold dead. cbn [world.deref]. now rewrite H1. }
  destruct (step_population_shared h world.Reference Halive)
    as (h3 & Hpop & Hstep).
  cbn [world.deref] in Hpop, Hstep. rewrite H1 in Hpop.
  assert (Hnan : res_population
                   (available (world.reference (world.step h world.Reference)))
                 = nan).
  { rewrite Hstep. now apply birth_reference_of_one. }
  unfold dead. now rewrite Hnan.
Qed.

Lemma reference_last_inhabitant_witness :
  dead (world.reference
          (world.step (world.exported examples.refStd examples.colony)
                      world.Reference)) = false.
Proof.
  apply (reference_last_inhabitant
           (world.exported examples.refStd examples.colony)).
  reflexivity.
Defined.
